(** * Agilent ChemStation [.ch] decoders

    A shallow embedding of the two decoders of the repository:

    - [chConverter] of [main_program.py], the run-length/delta decoder of the
      older trace encoding;
    - the class [CHFile] of [Old Files/agilent-ch_converter.py]
      ([_parse_header], [_parse_data], [times]), the version-179 decoder;

    and of what [main_program.py] does with the decoded samples: [findPeaks]
    and the loop in which [analyzeData] collects its table.

    Python's file objects are modelled as a byte content with a read position,
    exceptions as an outcome of a state-and-exception monad in which the state
    survives a raised exception (as the file object and [self] do in Python),
    and Python's [float] as Rocq's primitive binary64 floats. *)

From Stdlib Require Import ZArith List Lia Bool.
From Stdlib Require Import Floats Uint63.
From Stdlib Require Strings.Byte.
From stdpp Require Import base tactics option list gmap strings pretty.

Import ListNotations.
Local Open Scope Z_scope.

(** ** Bytes *)

Abbreviation byte := Init.Byte.byte.

Definition byte_to_Z (b : byte) : Z := Z.of_N (Byte.to_N b).

Definition byte_to_nat (b : byte) : nat := Byte.to_nat b.

(** Big-endian and little-endian unsigned values of a byte string. *)
Definition be_uint (bs : list byte) : Z :=
  fold_left (fun acc b => acc * 256 + byte_to_Z b) bs 0.

Definition le_uint (bs : list byte) : Z := be_uint (rev bs).

(** Two's complement reading of a [w]-bit unsigned value. *)
Definition to_signed (w : Z) (z : Z) : Z :=
  if z <? 2 ^ (w - 1) then z else z - 2 ^ w.

(** ** Python floats: IEEE 754 binary64 *)

(** [float(n)] for an integer [n] (exact below 2^53, which covers every
    integer the decoders convert). *)
Definition float_of_Z (z : Z) : float :=
  match z with
  | Z0 => PrimFloat.zero
  | Zpos _ => PrimFloat.of_uint63 (Uint63.of_Z z)
  | Zneg p => PrimFloat.opp (PrimFloat.of_uint63 (Uint63.of_Z (Zpos p)))
  end.

(** The float whose IEEE 754 bit pattern is [bits], for a format with
    [ebits] exponent bits and [mbits] fraction bits (binary64: 11 and 52,
    binary32: 8 and 23).  Every binary32 value is a binary64 value, so the
    same reading serves struct's ['f'].  All NaN patterns read as the one
    NaN of the primitive floats. *)
Definition float_of_bits (ebits mbits : Z) (bits : Z) : float :=
  let sign := Z.testbit bits (ebits + mbits) in
  let e := Z.land (Z.shiftr bits mbits) (Z.ones ebits) in
  let m := Z.land bits (Z.ones mbits) in
  let bias := 2 ^ (ebits - 1) - 1 in
  if e =? Z.ones ebits then
    if m =? 0 then (if sign then neg_infinity else infinity) else nan
  else if e =? 0 then
    match m with
    | Zpos p => SF2Prim (S754_finite sign p (1 - bias - mbits))
    | _ => if sign then neg_zero else PrimFloat.zero
    end
  else
    match (2 ^ mbits + m)%Z with
    | Zpos p => SF2Prim (S754_finite sign p (e - bias - mbits))
    | _ => nan
    end.

Definition double_of_bits : Z -> float := float_of_bits 11 52.
Definition single_of_bits : Z -> float := float_of_bits 8 23.

(** ** Exceptions and the state-and-exception monad *)

Inductive exception : Type :=
  | struct_error                     (* struct.error: buffer of the wrong size *)
  | ValueError (msg : string)
  | KeyError (key : string)
  | TypeError.

(** What running a piece of Python code gives: a value, a raised exception,
    or, for the model of an unbounded loop, no answer within the fuel. *)
Inductive outcome (A : Type) : Type :=
  | Return (a : A)
  | Raise (e : exception)
  | OutOfFuel.
Arguments Return {A} a.
Arguments Raise {A} e.
Arguments OutOfFuel {A}.

Definition Py (St A : Type) : Type := St -> outcome A * St.

Definition ret {St A} (a : A) : Py St A := fun s => (Return a, s).

Definition raise {St A} (e : exception) : Py St A := fun s => (Raise e, s).

Definition out_of_fuel {St A} : Py St A := fun s => (OutOfFuel, s).

Definition bind {St A B} (m : Py St A) (k : A -> Py St B) : Py St B :=
  fun s =>
    match m s with
    | (Return a, s') => k a s'
    | (Raise e, s') => (Raise e, s')
    | (OutOfFuel, s') => (OutOfFuel, s')
    end.

Declare Scope py_scope.
Delimit Scope py_scope with py.
Notation "'let*' x ':=' m 'in' k" := (bind m (fun x => k))
  (at level 10, x name, m at level 100, k at level 200) : py_scope.
Notation "'let*' ' p ':=' m 'in' k" := (bind m (fun x => match x with p => k end))
  (at level 10, p pattern, m at level 100, k at level 200) : py_scope.
Notation "m ';;;' k" := (bind m (fun _ => k))
  (at level 100, k at level 200, right associativity) : py_scope.
Local Open Scope py_scope.

(** ** File objects opened in binary mode *)

Record file : Type := File { content : list byte; pos : nat }.

(** [file_.seek(offset)]: any offset is accepted, also one past the end. *)
Definition seek (offset : nat) : Py file unit :=
  fun f => (Return tt, File (content f) offset).

(** [file_.seek(0, 2)]: to the end of the file. *)
Definition seek_end : Py file unit :=
  fun f => (Return tt, File (content f) (length (content f))).

Definition tell : Py file nat := fun f => (Return (pos f), f).

(** [file_.read(n)]: the next [n] bytes, or as many as are left. *)
Definition read (n : nat) : Py file (list byte) :=
  fun f =>
    let bs := take n (drop (pos f) (content f)) in
    (Return bs, File (content f) (pos f + length bs)).

(** ** The [struct] formats the decoders use

    [struct.unpack] raises [struct.error] unless the buffer has exactly the
    size of the format. *)

Definition unpack_sized {St A} (size : nat) (decode : list byte -> A)
    (buffer : list byte) : Py St A :=
  if Nat.eqb (length buffer) size then ret (decode buffer) else raise struct_error.

(** ['>BB'] *)
Definition unpack_BB {St} : list byte -> Py St (Z * Z) :=
  unpack_sized 2 (fun bs => (be_uint (take 1 bs), be_uint (drop 1 bs))).

(** ['>h'] *)
Definition unpack_h {St} : list byte -> Py St Z :=
  unpack_sized 2 (fun bs => to_signed 16 (be_uint bs)).

(** ['>i'] *)
Definition unpack_i {St} : list byte -> Py St Z :=
  unpack_sized 4 (fun bs => to_signed 32 (be_uint bs)).

(** ['>d'] *)
Definition unpack_d {St} : list byte -> Py St float :=
  unpack_sized 8 (fun bs => double_of_bits (be_uint bs)).

(** ** [main_program.py]: [chConverter] *)

Module main_program.

(** The body of [for _ in range(nrecs)]. *)
Definition for_body (del_ab : float) (data : list float) : Py file (list float) :=
  let* bs := read 2 in
  let* inp := unpack_h bs in
  if inp =? -32768 then
    let* bs := read 4 in
    let* inp := unpack_i bs in
    ret (data ++ [(del_ab * float_of_Z inp)%float])
  else if Nat.eqb (length data) 0 then
    ret (data ++ [(del_ab * float_of_Z inp)%float])
  else
    ret (data ++ [(List.last data PrimFloat.zero + del_ab * float_of_Z inp)%float]).

Fixpoint for_range (n : nat) (del_ab : float) (data : list float)
    : Py file (list float) :=
  match n with
  | O => ret data
  | S n' =>
      let* data := for_body del_ab data in
      for_range n' del_ab data
  end.

(** [while True:], with fuel for the iterations. *)
Fixpoint while_True (fuel : nat) (del_ab : float) (data : list float)
    : Py file (list float) :=
  match fuel with
  | O => out_of_fuel
  | S fuel' =>
      let* bs := read 2 in
      let* '(x, nrecs) := unpack_BB bs in
      if (x =? 0) && (nrecs =? 0) then ret data
      else
        let* data := for_range (Z.to_nat nrecs) del_ab data in
        while_True fuel' del_ab data
  end.

(** Every iteration of the loop that does not raise consumes at least the
    two header bytes, so one more iteration than the file has bytes is
    never reached: the fuel given here is never exhausted
    ([chConverter_total] below). *)
Definition chConverter : Py file (list float) :=
  seek 0x127C ;;;
  let* bs := read 8 in
  let* del_ab := unpack_d bs in
  seek 0x1800 ;;;
  fun file_ => while_True (S (length (content file_))) del_ab [] file_.

End main_program.


(** ** [Old Files/agilent-ch_converter.py]: the class [CHFile] *)

Module agilent_ch_converter.

(** The values of the [metadata] dictionary. *)
Inductive value : Type :=
  | VInt (z : Z)
  | VFloat (x : float)
  | VStr (s : string)
  | VTime (t : list Z).             (* a [time.struct_time] *)

(** Modelled from the spec: the module constants [ENDIAN], [UINT8], [UINT16]
    and [STRING] are used by the class and defined nowhere in the file.  The
    spec has the scalar fields big-endian and the version a length-prefixed
    ASCII string, so [ENDIAN] is ['>'], [UINT8] is [ENDIAN + 'B'], [UINT16] is
    [ENDIAN + 'H'] and [STRING] is [ENDIAN + '{}s']. *)
Inductive format : Type :=
  | UINT8
  | UINT16
  | ENDIAN_f                         (* ENDIAN + 'f' *)
  | ENDIAN_d                         (* ENDIAN + 'd' *)
  | STRING (n : nat).                (* STRING.format(n) *)

Definition calcsize (fmt : format) : nat :=
  match fmt with
  | UINT8 => 1
  | UINT16 => 2
  | ENDIAN_f => 4
  | ENDIAN_d => 8
  | STRING n => n
  end.

(** The first item of [unpack(fmt, buffer)]. *)
Inductive item : Type :=
  | IInt (z : Z)
  | IFloat (x : float)
  | IBytes (bs : list byte).

Definition unpack {St} (fmt : format) : list byte -> Py St item :=
  unpack_sized (calcsize fmt)
    (fun bs =>
       match fmt with
       | UINT8 | UINT16 => IInt (be_uint bs)
       | ENDIAN_f => IFloat (single_of_bits (be_uint bs))
       | ENDIAN_d => IFloat (double_of_bits (be_uint bs))
       | STRING _ => IBytes bs
       end).

Inductive field_type : Type :=
  | x_time                           (* 'x-time' *)
  | utf16                            (* 'utf16' *)
  | struct_format (fmt : format).

(** The table [fields] of name, offset and type. *)
Definition fields : list (string * nat * field_type) :=
  [ ("sequence_line_or_injection", 252%nat, struct_format UINT16);
    ("injection_or_sequence_line", 256%nat, struct_format UINT16);
    ("start_time", 282%nat, x_time);
    ("end_time", 286%nat, x_time);
    ("version_string", 326%nat, utf16);
    ("description", 347%nat, utf16);
    ("sample", 858%nat, utf16);
    ("operator", 1880%nat, utf16);
    ("date", 2391%nat, utf16);
    ("inlet", 2492%nat, utf16);
    ("instrument", 2533%nat, utf16);
    ("method", 2574%nat, utf16);
    ("software version", 3601%nat, utf16);
    ("software name", 3089%nat, utf16);
    ("software revision", 3802%nat, utf16);
    ("units", 4172%nat, utf16);
    ("detector", 4213%nat, utf16);
    ("yscaling", 4732%nat, struct_format ENDIAN_d) ].

Definition data_start : nat := 6144.

Definition supported_versions : gset Z := {[ 179 ]}.

(** While the object is built the state is [self.metadata] and the open
    file. *)
Definition state : Type := gmap string value * file.

Definition on_file {A} (m : Py file A) : Py state A :=
  fun s =>
    match m (snd s) with
    | (r, f') => (r, (fst s, f'))
    end.

(** [self.metadata[key] = v] *)
Definition set_item (key : string) (v : value) : Py state unit :=
  fun s => (Return tt, (<[key := v]> (fst s), snd s)).

(** [self.metadata[key]] *)
Definition get_item (key : string) : Py state value :=
  fun s =>
    match fst s !! key with
    | Some v => (Return v, s)
    | None => (Raise (KeyError key), s)
    end.

(** A number as a float, for the arithmetic of numpy and of Python; other
    values are a [TypeError]. *)
Definition as_float {St} (v : value) : Py St float :=
  match v with
  | VFloat x => ret x
  | VInt z => ret (float_of_Z z)
  | _ => raise TypeError
  end.

(** [n] little-endian doubles from the bytes [bs]. *)
Fixpoint le_doubles (n : nat) (bs : list byte) : list float :=
  match n with
  | O => []
  | S n' => double_of_bits (le_uint (take 8 bs)) :: le_doubles n' (drop 8 bs)
  end.

(** [numpy.fromfile(file_, dtype='<d', count=count)], as numpy computes it:
    [count] little-endian doubles from the current position, fewer when the
    file ends before.  A negative [count] asks for all the items that are
    left: their number is the distance from the position to the end of the
    file divided by 8, rounded towards zero, and the array of a negative
    number of items, eight bytes or more past the end, is a [ValueError]. *)
Definition numpy_fromfile (count : Z) : Py file (list float) :=
  fun f =>
    let left := drop (pos f) (content f) in
    if count <? 0 then
      let num := (Z.of_nat (length (content f)) - Z.of_nat (pos f)) `quot` 8 in
      if num <? 0 then (Raise (ValueError "negative dimensions are not allowed"), f)
      else (Return (le_doubles (Z.to_nat num) left),
            File (content f) (pos f + 8 * Z.to_nat num))
    else
      let n := Nat.min (Z.to_nat count) (length left / 8) in
      (Return (le_doubles n left), File (content f) (pos f + 8 * n)).

(** [numpy.linspace(start, stop, num)] on floats, with numpy's default
    [endpoint=True], as numpy computes it: [div = num - 1] and
    [delta = stop - start]; the points are [arange(0, num) * step + start]
    with [step = delta / div] when [div > 0] (computed as
    [arange(0, num) / div * delta + start] when that step is zero), and
    [arange(0, num) * delta + start] otherwise; the last point is replaced by
    [stop] itself when [num > 1]. *)
Definition numpy_linspace (start stop : float) (num : nat) : list float :=
  let div := (num - 1)%nat in
  let delta := (stop - start)%float in
  let y := map (fun i => float_of_Z (Z.of_nat i)) (seq 0 num) in
  let y :=
    if (0 <? div)%nat then
      let step := (delta / float_of_Z (Z.of_nat div))%float in
      if (step =? 0)%float
      then map (fun i => (i / float_of_Z (Z.of_nat div) * delta)%float) y
      else map (fun i => (i * step)%float) y
    else map (fun i => (i * delta)%float) y in
  let y := map (fun v => (v + start)%float) y in
  if (1 <? num)%nat then <[ (num - 1)%nat := stop ]> y else y.

Section CHFile.

(** Python's built-in [int] on a bytes object: [None] stands for the
    [ValueError] of a string that is no integer literal. *)
Variable int : list byte -> option Z.

(** The module's helper [parse_utf16_string(file_)], which the file uses
    and does not define: any reader of the file object. *)
Variable parse_utf16_string : Py file string.

(** [time.strptime(string, format)]: [None] stands for the [ValueError] of
    a string that does not match. *)
Variable strptime : string -> string -> option (list Z).

Definition parse_field (field : string * nat * field_type) : Py state unit :=
  let '(name, offset, type_) := field in
  on_file (seek offset) ;;;
  match type_ with
  | utf16 =>
      let* s := on_file parse_utf16_string in
      set_item name (VStr s)
  | x_time =>
      let* bs := on_file (read 4) in
      let* x := unpack ENDIAN_f bs in
      match x with
      | IFloat x => set_item name (VFloat (x / float_of_Z 60000)%float)
      | _ => raise TypeError
      end
  | struct_format fmt =>
      let* bs := on_file (read (calcsize fmt)) in
      let* x := unpack fmt bs in
      match x with
      | IInt z => set_item name (VInt z)
      | IFloat x => set_item name (VFloat x)
      | IBytes _ => raise TypeError
      end
  end.

(** [for name, offset, type_ in self.fields:] *)
Fixpoint parse_fields (fs : list (string * nat * field_type)) : Py state unit :=
  match fs with
  | [] => ret tt
  | field :: fs' => parse_field field ;;; parse_fields fs'
  end.

Definition _parse_header : Py state unit :=
  let* bs := on_file (read 1) in
  let* length := unpack UINT8 bs in
  match length with
  | IInt length =>
      let* bs := on_file (read (Z.to_nat length)) in
      let* parsed := unpack (STRING (Z.to_nat length)) bs in
      match parsed with
      | IBytes parsed =>
          match int parsed with
          | None => raise (ValueError "invalid literal for int() with base 10")
          | Some version =>
              if decide (version ∉ supported_versions) then
                raise (ValueError ("Unsupported file version " +:+ pretty version))
              else
                set_item "magic_number_version" (VInt version) ;;;
                parse_fields fields ;;;
                let* date := get_item "date" in
                match date with
                | VStr date =>
                    match strptime date "%d-%b-%y, %H:%M:%S" with
                    | Some t => set_item "datetime" (VTime t)
                    | None => raise (ValueError "time data does not match format")
                    end
                | _ => raise TypeError
                end
          end
      | _ => raise TypeError
      end
  | _ => raise TypeError
  end.

Definition _parse_data : Py state (list float) :=
  on_file seek_end ;;;
  let* size := on_file tell in
  let n_points := (Z.of_nat size - Z.of_nat data_start) `div` 8 in
  on_file (seek data_start) ;;;
  let* raw := on_file (numpy_fromfile n_points) in
  let* yscaling := get_item "yscaling" in
  let* yscaling := as_float yscaling in
  ret (map (fun v => (v * yscaling)%float) raw).

(** The object once built: its [metadata] and [values]. *)
Record CHFile : Type := { metadata : gmap string value; values : list float }.

(** [CHFile(filepath)], for the bytes of the file at [filepath]. *)
Definition __init__ (bytes : list byte) : outcome CHFile :=
  match (_parse_header ;;; _parse_data) (∅, File bytes 0) with
  | (Return vals, (md, _)) => Return {| metadata := md; values := vals |}
  | (Raise e, _) => Raise e
  | (OutOfFuel, _) => OutOfFuel
  end.

(** The property [times]. *)
Definition times : Py CHFile (list float) :=
  fun self =>
    match metadata self !! "start_time", metadata self !! "end_time" with
    | None, _ => (Raise (KeyError "start_time"), self)
    | Some _, None => (Raise (KeyError "end_time"), self)
    | Some start, Some stop =>
        (let* start := as_float start in
         let* stop := as_float stop in
         ret (numpy_linspace start stop (length (values self)))) self
    end.

End CHFile.

End agilent_ch_converter.

Import main_program.
Import agilent_ch_converter.

(** ** The run records of the delta encoding

    The byte stream that [chConverter] reads from offset 0x1800, described as
    data: a sequence of run records, each a header of two bytes followed by
    delta entries, closed by the header (0, 0). *)

Inductive entry : Type :=
  | Direct (b1 b2 : byte)             (* a 16-bit delta *)
  | Escaped (b3 b4 b5 b6 : byte).     (* the sentinel, then a 32-bit value *)

Definition delta16 (b1 b2 : byte) : Z := to_signed 16 (be_uint [b1; b2]).

Definition delta32 (b3 b4 b5 b6 : byte) : Z := to_signed 32 (be_uint [b3; b4; b5; b6]).

Definition entry_bytes (e : entry) : list byte :=
  match e with
  | Direct b1 b2 => [b1; b2]
  | Escaped b3 b4 b5 b6 => [Byte.x80; Byte.x00; b3; b4; b5; b6]
  end.

(** A direct entry is one whose 16 bits are not the sentinel. *)
Definition entry_ok (e : entry) : Prop :=
  match e with
  | Direct b1 b2 => delta16 b1 b2 <> -32768
  | Escaped _ _ _ _ => True
  end.

Record RunRecord : Type :=
  { flag : byte; runLength : byte; deltas : list entry }.

Definition run_bytes (r : RunRecord) : list byte :=
  flag r :: runLength r :: concat (map entry_bytes (deltas r)).

(** A run record has as many entries as its header says, and its header is
    not the terminator. *)
Definition run_ok (r : RunRecord) : Prop :=
  length (deltas r) = byte_to_nat (runLength r)
  /\ ~ (flag r = Byte.x00 /\ runLength r = Byte.x00)
  /\ Forall entry_ok (deltas r).

Definition runs_bytes (runs : list RunRecord) : list byte :=
  concat (map run_bytes runs).

Definition terminator : list byte := [Byte.x00; Byte.x00].

Definition stream_bytes (runs : list RunRecord) : list byte :=
  runs_bytes runs ++ terminator.

(** The sample an entry produces after the samples [data], as the branches
    of [chConverter]'s inner loop compute it. *)
Definition next_sample (del_ab : float) (data : list float) (e : entry) : float :=
  match e with
  | Escaped b3 b4 b5 b6 => (del_ab * float_of_Z (delta32 b3 b4 b5 b6))%float
  | Direct b1 b2 =>
      match data with
      | [] => (del_ab * float_of_Z (delta16 b1 b2))%float
      | _ :: _ => (List.last data PrimFloat.zero + del_ab * float_of_Z (delta16 b1 b2))%float
      end
  end.

Definition run_samples (del_ab : float) (data : list float) (es : list entry)
    : list float :=
  fold_left (fun data e => data ++ [next_sample del_ab data e]) es data.

Definition samples_from (del_ab : float) (data : list float) (runs : list RunRecord)
    : list float :=
  fold_left (fun data r => run_samples del_ab data (deltas r)) runs data.

Definition samples (del_ab : float) (runs : list RunRecord) : list float :=
  samples_from del_ab [] runs.

(** The sample of an entry as the specification words it: the first sample
    overall is [scale * delta], every later one [previousSample + scale *
    delta], for a direct and for an escaped entry alike. *)
Definition entry_value (e : entry) : Z :=
  match e with
  | Direct b1 b2 => delta16 b1 b2
  | Escaped b3 b4 b5 b6 => delta32 b3 b4 b5 b6
  end.

Definition spec_next_sample (scale : float) (data : list float) (e : entry) : float :=
  match data with
  | [] => (scale * float_of_Z (entry_value e))%float
  | _ :: _ => (List.last data PrimFloat.zero + scale * float_of_Z (entry_value e))%float
  end.

(** The scale factor stored in a file: the big-endian double at 0x127C. *)
Definition scale_of (bytes : list byte) : float :=
  double_of_bits (be_uint (take 8 (drop 0x127C bytes))).

(** ** Auxiliary definitions and example files *)

(** The bytes from the read position on. *)
Definition ahead (f : file) : list byte := drop (pos f) (content f).

Definition advance (n : nat) (f : file) : file := File (content f) (pos f + n).

Definition entries_bytes (es : list entry) : list byte :=
  concat (map entry_bytes es).

(** The stream at 0x1800 reaches the terminator: it is a sequence of
    complete run records followed by the header (0, 0). *)
Definition reaches_terminator (bytes : list byte) : Prop :=
  exists runs rest, Forall run_ok runs /\ drop 0x1800 bytes = stream_bytes runs ++ rest.

(** The sum of the [runLength] bytes of a list of run records. *)
Definition total_runLength (runs : list RunRecord) : nat :=
  sum_list (map (fun r => byte_to_nat (runLength r)) runs).

(** A file with the eight bytes [scale] at 0x127C, zeros elsewhere before
    0x1800, and [stream] from 0x1800 on. *)
Definition trace_file (scale stream : list byte) : list byte :=
  repeat Byte.x00 0x127C ++ scale ++ repeat Byte.x00 (0x1800 - 0x127C - 8) ++ stream.

(** 0.5 and 0.1 as big-endian doubles. *)
Definition half : list byte :=
  [Byte.x3f; Byte.xe0; Byte.x00; Byte.x00; Byte.x00; Byte.x00; Byte.x00; Byte.x00].

Definition tenth : list byte :=
  [Byte.x3f; Byte.xb9; Byte.x99; Byte.x99; Byte.x99; Byte.x99; Byte.x99; Byte.x9a].

(** The run (flag 1, runLength 3, deltas 10, -5, 2), then the terminator. *)
Definition plain_run : list byte :=
  [Byte.x01; Byte.x03; Byte.x00; Byte.x0a; Byte.xff; Byte.xfb; Byte.x00; Byte.x02;
   Byte.x00; Byte.x00].

(** The run record of [plain_run]. *)
Definition plain_records : list RunRecord :=
  [ {| flag := Byte.x01; runLength := Byte.x03;
       deltas := [Direct Byte.x00 Byte.x0a; Direct Byte.xff Byte.xfb;
                  Direct Byte.x00 Byte.x02] |} ].

(** The same run under the flag byte 7f. *)
Definition plain_records_7f : list RunRecord :=
  [ {| flag := Byte.x7f; runLength := Byte.x03;
       deltas := [Direct Byte.x00 Byte.x0a; Direct Byte.xff Byte.xfb;
                  Direct Byte.x00 Byte.x02] |} ].

(** The run record of [escaped_run]. *)
Definition escaped_record : RunRecord :=
  {| flag := Byte.x01; runLength := Byte.x03;
     deltas := [Escaped Byte.x00 Byte.x00 Byte.x03 Byte.xe8; Direct Byte.x00 Byte.x0a;
                Escaped Byte.xff Byte.xff Byte.xff Byte.xce] |}.

(** The entries of [plain_records] as one run of one entry and one of two. *)
Definition plain_records_split : list RunRecord :=
  [ {| flag := Byte.x01; runLength := Byte.x01;
       deltas := [Direct Byte.x00 Byte.x0a] |};
    {| flag := Byte.x01; runLength := Byte.x02;
       deltas := [Direct Byte.xff Byte.xfb; Direct Byte.x00 Byte.x02] |} ].

(** A file with scale 0.5 whose stream is a run header (5, 0), the run of
    [plain_run] under the flag byte 7f, and the terminator. *)
Definition flagged_file : file :=
  File (trace_file half (Byte.x05 :: Byte.x00 :: stream_bytes plain_records_7f)) 0.

(** The run (flag 1, runLength 3): an escaped 1000, a direct 10 and an
    escaped -50, then the terminator. *)
Definition escaped_run : list byte :=
  [Byte.x01; Byte.x03;
   Byte.x80; Byte.x00; Byte.x00; Byte.x00; Byte.x03; Byte.xe8;
   Byte.x00; Byte.x0a;
   Byte.x80; Byte.x00; Byte.xff; Byte.xff; Byte.xff; Byte.xce;
   Byte.x00; Byte.x00].

(** The stream of [plain_run] cut in the middle of its second delta, and cut
    after its last delta, before the terminator. *)
Definition cut_in_run : list byte :=
  [Byte.x01; Byte.x03; Byte.x00; Byte.x0a; Byte.xff].

Definition cut_before_terminator : list byte :=
  [Byte.x01; Byte.x03; Byte.x00; Byte.x0a; Byte.xff; Byte.xfb; Byte.x00; Byte.x02].

(** An [int] for the examples: the strings of decimal digits, which are the
    literals Python's [int] reads without sign, blanks or underscores. *)
Definition digit_value (b : byte) : option Z :=
  let z := byte_to_Z b in
  if (48 <=? z) && (z <=? 57) then Some (z - 48) else None.

Fixpoint decimal_digits (acc : Z) (bs : list byte) : option Z :=
  match bs with
  | [] => Some acc
  | b :: bs' =>
      match digit_value b with
      | Some d => decimal_digits (acc * 10 + d) bs'
      | None => None
      end
  end.

Definition decimal_int (bs : list byte) : option Z :=
  match bs with
  | [] => None
  | _ :: _ => decimal_digits 0 bs
  end.

(** The version string "130". *)
Definition version_130 : list byte := [Byte.x31; Byte.x33; Byte.x30].



(** The number of doubles [numpy.fromfile] is asked for and finds in a file
    of [size] bytes. *)
Definition n_doubles (size : nat) : nat := ((size - data_start) / 8)%nat.

(** 1.0 and 1.5 as little-endian doubles. *)
Definition one_le : list byte :=
  [Byte.x00; Byte.x00; Byte.x00; Byte.x00; Byte.x00; Byte.x00; Byte.xf0; Byte.x3f].

Definition one_and_a_half_le : list byte :=
  [Byte.x00; Byte.x00; Byte.x00; Byte.x00; Byte.x00; Byte.x00; Byte.xf8; Byte.x3f].

(** A file with zeros up to the data start, one double and four bytes more. *)
Definition ragged_file : list byte :=
  repeat Byte.x00 data_start ++ one_le ++ [Byte.x01; Byte.x02; Byte.x03; Byte.x04].

(** A file with zeros up to the data start and two doubles. *)
Definition two_samples_file : list byte :=
  repeat Byte.x00 data_start ++ concat [one_le; one_and_a_half_le].

Definition yscaling_two : gmap string value := {[ "yscaling" := VFloat 2 ]}.




(** ** [main_program.py]: [findPeaks] *)

(** Indexing a Python list: a value, or an [IndexError]. *)
Inductive checked (A : Type) : Type :=
  | Value (a : A)
  | IndexError.
Arguments Value {A} a.
Arguments IndexError {A}.

Definition and_then {A B} (m : checked A) (k : A -> checked B) : checked B :=
  match m with
  | Value a => k a
  | IndexError => IndexError
  end.

Notation "'let?' x ':=' m 'in' k" := (and_then m (fun x => k))
  (at level 10, x name, m at level 100, k at level 200) : py_scope.

(** [l[i]] for an index that is not negative. *)
Definition getitem {A} (l : list A) (i : nat) : checked A :=
  match l !! i with
  | Some x => Value x
  | None => IndexError
  end.

(** The local variables of [findPeaks] that the loop changes. *)
Record peak_state : Type :=
  { peakpoints : list (list float);
    max_iters : Z;
    inc_run : Z;
    local_max : float * float }.

(** [a > b] on floats. *)
Definition float_gt (a b : float) : bool := (b <? a)%float.

(** The body of [for i in range(1, len(ydata))]. *)
Definition findPeaks_body (xdata ydata : list float) (peakwidth : Z) (i : nat)
    (st : peak_state) : checked peak_state :=
  let? yi := getitem ydata i in
  let? st :=
    if float_gt yi (snd (local_max st)) then
      let? xi := getitem xdata i in
      let? yi := getitem ydata i in
      Value {| peakpoints := peakpoints st; max_iters := 0; inc_run := 0;
               local_max := (xi, yi) |}
    else if (yi <=? snd (local_max st))%float then
      Value {| peakpoints := peakpoints st; max_iters := max_iters st + 1;
               inc_run := inc_run st; local_max := local_max st |}
    else Value st in
  let? yi := getitem ydata i in
  let? yprev := getitem ydata (i - 1) in
  let st :=
    if float_gt yi yprev then
      {| peakpoints := peakpoints st; max_iters := max_iters st;
         inc_run := inc_run st + 1; local_max := local_max st |}
    else st in
  if (peakwidth <? max_iters st) && (peakwidth <? inc_run st) then
    let? points :=
      if negb (snd (local_max st) <? 0)%float then
        let? p0 := getitem (peakpoints st) 0 in
        let points := <[ 0%nat := p0 ++ [fst (local_max st)] ]> (peakpoints st) in
        let? p1 := getitem points 1 in
        Value (<[ 1%nat := p1 ++ [snd (local_max st)] ]> points)
      else Value (peakpoints st) in
    let? xi := getitem xdata i in
    let? yi := getitem ydata i in
    Value {| peakpoints := points; max_iters := 0; inc_run := 0; local_max := (xi, yi) |}
  else Value st.

Fixpoint findPeaks_loop (xdata ydata : list float) (peakwidth : Z) (indices : list nat)
    (st : peak_state) : checked peak_state :=
  match indices with
  | [] => Value st
  | i :: indices' =>
      let? st := findPeaks_body xdata ydata peakwidth i st in
      findPeaks_loop xdata ydata peakwidth indices' st
  end.

Definition findPeaks (xdata ydata : list float) (peakwidth : Z)
    : checked (list (list float)) :=
  let? x0 := getitem xdata 0 in
  let? y0 := getitem ydata 0 in
  let? st :=
    findPeaks_loop xdata ydata peakwidth (seq 1 (length ydata - 1))
      {| peakpoints := []; max_iters := 0; inc_run := 0; local_max := (x0, y0) |} in
  Value (peakpoints st).

(** ** The fields of a [CHFile] header *)

(** The name of an entry of the field table. *)
Definition field_name (field : string * nat * field_type) : string := fst (fst field).

(** What a field of type [type_] at [offset] holds in a file of content
    [bytes]: the value [parse_field] stores under the field's name, or the
    exception of a field that cannot be read. *)
Definition field_value (parse_utf16_string : Py file string) (bytes : list byte)
    (offset : nat) (type_ : field_type) : outcome value :=
  match type_ with
  | utf16 =>
      match fst (parse_utf16_string (File bytes offset)) with
      | Return s => Return (VStr s)
      | Raise e => Raise e
      | OutOfFuel => OutOfFuel
      end
  | x_time =>
      let bs := take 4 (drop offset bytes) in
      if Nat.eqb (length bs) 4
      then Return (VFloat (single_of_bits (be_uint bs) / float_of_Z 60000)%float)
      else Raise struct_error
  | struct_format fmt =>
      let bs := take (calcsize fmt) (drop offset bytes) in
      if Nat.eqb (length bs) (calcsize fmt) then
        match fmt with
        | UINT8 | UINT16 => Return (VInt (be_uint bs))
        | ENDIAN_f => Return (VFloat (single_of_bits (be_uint bs)))
        | ENDIAN_d => Return (VFloat (double_of_bits (be_uint bs)))
        | STRING _ => Raise TypeError
        end
      else Raise struct_error
  end.

(** The keys of the [metadata] of an object that was built. *)
Definition metadata_keys : list string :=
  "magic_number_version" :: "datetime" :: map field_name fields.

(** The format [_parse_header] gives [time.strptime]. *)
Definition date_format : string := "%d-%b-%y, %H:%M:%S".

(** A version-179 file for the examples: the version string, zeros up to
    the data start but for the scale factor 2.0 at offset 4732, and the two
    doubles 1.0 and 1.5. *)
Definition version_179_file : list byte :=
  [Byte.x03; Byte.x31; Byte.x37; Byte.x39]
  ++ repeat Byte.x00 (4732 - 4)
  ++ [Byte.x40; Byte.x00; Byte.x00; Byte.x00; Byte.x00; Byte.x00; Byte.x00; Byte.x00]
  ++ repeat Byte.x00 (data_start - 4740)
  ++ concat [one_le; one_and_a_half_le].

(** Readers for the examples: every string field reads as the same date,
    and [strptime] accepts that date only. *)
Definition example_reader : Py file string := ret "01-Jan-20, 10:30:00".

Definition example_strptime (s fmt : string) : option (list Z) :=
  if decide (s = "01-Jan-20, 10:30:00") then Some [2020; 1; 1; 10; 30; 0; 2; 1; -1]
  else None.

(** A reader of a file opened for reading leaves the content of the file as
    it is, wherever it moves the position. *)
Definition keeps_content (parse_utf16_string : Py file string) : Prop :=
  forall g : file, content (snd (parse_utf16_string g)) = content g.

(** ** [main_program.py]: the inner loop of [analyzeData]

    For every run [analyzeData] writes the decoded points to the CSV file of
    the run and adds them to [lines], the rows it writes to
    "Samples Data.csv" in the end, and to [float_data]: the loop
    [for i, point in enumerate(point_list)].  That loop is modelled, with
    what is written to [ofile], [lines] and [float_data] as its state.  The
    rest of the function works on directories, files and plots and is not
    modelled. *)

(** [enumerate(l)] *)
Definition enumerate {A} (l : list A) : list (nat * A) := zip (seq 0 (length l)) l.

(** [i/150.] for an index [i]. *)
Definition minutes (i : nat) : float := (float_of_Z (Z.of_nat i) / 150)%float.

Definition newline : string := String (Ascii.ascii_of_nat 10) EmptyString.

(** The state of the loop: the strings written to [ofile] so far, [lines]
    and [float_data]. *)
Record collected : Type :=
  { ofile : list string; lines : list (list string); float_data : list (list float) }.

Section analyzeData.

(** Python's [str] on a float. *)
Variable str : float -> string.

(** ["%s,%s\n"%(str(i/150.), str(point))] *)
Definition csv_line (i : nat) (point : float) : string :=
  str (minutes i) +:+ "," +:+ str point +:+ newline.

(** The body of the loop: the write, the two appends of the [try], and what
    the bare [except] does when one of them raises [IndexError]. *)
Definition enumerate_body (i : nat) (point : float) (st : collected) : collected :=
  let ofile := ofile st ++ [csv_line i point] in
  match lines st !! i with
  | Some line =>
      let lines := <[i := line ++ [str point]]> (lines st) in
      match float_data st !! i with
      | Some row =>
          {| ofile := ofile; lines := lines;
             float_data := <[i := row ++ [point]]> (float_data st) |}
      | None =>
          let lines' := lines ++ [[str (minutes (length lines)); str point]] in
          {| ofile := ofile; lines := lines';
             float_data := float_data st ++ [[minutes (length lines'); point]] |}
      end
  | None =>
      let lines' := lines st ++ [[str (minutes (length (lines st))); str point]] in
      {| ofile := ofile; lines := lines';
         float_data := float_data st ++ [[minutes (length lines'); point]] |}
  end.

(** [for i, point in enumerate(point_list):] *)
Definition for_enumerate (point_list : list float) (st : collected) : collected :=
  foldl (fun st ip => enumerate_body (fst ip) (snd ip) st) st (enumerate point_list).

End analyzeData.

(** The points number [i] of the runs that have one, in the order of the
    runs. *)
Definition points_at (i : nat) (point_lists : list (list float)) : list float :=
  omap (fun point_list => point_list !! i) point_lists.

(** The length of the longest run. *)
Definition longest (point_lists : list (list float)) : nat :=
  foldr Nat.max 0%nat (map length point_lists).

(** One run added to the rows there are: a row the run reaches gets one cell
    more, and the run opens a row, with its label, for every point beyond
    them. *)
Fixpoint merged {A} (label : nat -> A) (cell : float -> A) (i : nat)
    (rows : list (list A)) (point_list : list float) : list (list A) :=
  match point_list with
  | [] => rows
  | point :: point_list' =>
      match rows with
      | [] => [label i; cell point] :: merged label cell (S i) [] point_list'
      | row :: rows' => (row ++ [cell point]) :: merged label cell (S i) rows' point_list'
      end
  end.

(** The rows with a label and then the points number [i] of the runs. *)
Definition rows_of {A} (label : nat -> A) (cell : float -> A)
    (point_lists : list (list float)) : list (list A) :=
  map (fun i => label i :: map cell (points_at i point_lists))
    (seq 0 (longest point_lists)).

(** A [str] for the examples. *)
Definition example_str (x : float) : string :=
  if (x <? 0)%float then "-" else "+".

(** ** Facts about bytes and the struct formats *)

Lemma byte_to_Z_range (b : byte) : 0 <= byte_to_Z b <= 255.
Proof.
  unfold byte_to_Z. pose proof (Byte.to_N_bounded b). lia.
Qed.

Lemma byte_to_Z_inj (a b : byte) : byte_to_Z a = byte_to_Z b -> a = b.
Proof.
  unfold byte_to_Z. intros H. apply N2Z.inj in H.
  pose proof (Byte.of_to_N a) as Ha. rewrite H, Byte.of_to_N in Ha. congruence.
Qed.

Lemma byte_to_Z_zero (b : byte) : byte_to_Z b = 0 <-> b = Byte.x00.
Proof.
  split; [intros H; apply byte_to_Z_inj; exact H | intros ->; reflexivity].
Qed.

Lemma byte_to_Z_nat (b : byte) : Z.to_nat (byte_to_Z b) = byte_to_nat b.
Proof.
  unfold byte_to_Z, byte_to_nat. rewrite Byte.to_nat_via_N. lia.
Qed.

Lemma be_uint_2 (b1 b2 : byte) : be_uint [b1; b2] = byte_to_Z b1 * 256 + byte_to_Z b2.
Proof. unfold be_uint. simpl. lia. Qed.

(** The sentinel -32768 is the byte pair 80 00 and no other. *)
Lemma delta16_sentinel (b1 b2 : byte) :
  delta16 b1 b2 = -32768 <-> b1 = Byte.x80 /\ b2 = Byte.x00.
Proof.
  split.
  - unfold delta16, to_signed. rewrite be_uint_2.
    change (2 ^ (16 - 1)) with 32768. change (2 ^ 16) with 65536.
    pose proof (byte_to_Z_range b1). pose proof (byte_to_Z_range b2).
    destruct (Z.ltb_spec (byte_to_Z b1 * 256 + byte_to_Z b2) 32768); intros Hs.
    + lia.
    + split; apply byte_to_Z_inj.
      * change (byte_to_Z Byte.x80) with 128. lia.
      * change (byte_to_Z Byte.x00) with 0. lia.
  - intros [-> ->]. reflexivity.
Qed.

Lemma header_is_terminator (b1 b2 : byte) :
  (byte_to_Z b1 =? 0) && (byte_to_Z b2 =? 0) = true <-> b1 = Byte.x00 /\ b2 = Byte.x00.
Proof.
  rewrite andb_true_iff, !Z.eqb_eq, !byte_to_Z_zero. reflexivity.
Qed.

(** ** Reading from a file *)

Lemma read_ahead (f : file) (bs rest : list byte) :
  ahead f = bs ++ rest ->
  read (length bs) f = (Return bs, advance (length bs) f).
Proof.
  unfold read, ahead, advance. intros ->. rewrite take_app_length. reflexivity.
Qed.

Lemma ahead_advance (f : file) (bs rest : list byte) :
  ahead f = bs ++ rest -> ahead (advance (length bs) f) = rest.
Proof.
  unfold ahead, advance. simpl. intros H.
  rewrite <- drop_drop, H, drop_app_length. reflexivity.
Qed.

Lemma advance_advance (n m : nat) (f : file) :
  advance m (advance n f) = advance (n + m) f.
Proof. unfold advance. simpl. f_equal. lia. Qed.

(** A read that returns [n] bytes found them ahead. *)
Lemma read_full (n : nat) (f : file) :
  length (take n (ahead f)) = n ->
  ahead f = take n (ahead f) ++ ahead (advance n f).
Proof.
  intros _. unfold ahead, advance. simpl.
  rewrite <- drop_drop, take_drop. reflexivity.
Qed.

Lemma unpack_sized_ok {St A} (size : nat) (decode : list byte -> A)
    (buffer : list byte) (s : St) :
  length buffer = size ->
  unpack_sized size decode buffer s = (Return (decode buffer), s).
Proof.
  intros H. unfold unpack_sized. apply Nat.eqb_eq in H. rewrite H. reflexivity.
Qed.

Lemma unpack_sized_short {St A} (size : nat) (decode : list byte -> A)
    (buffer : list byte) (s : St) :
  length buffer <> size ->
  unpack_sized size decode buffer s = (Raise struct_error, s).
Proof.
  intros H. unfold unpack_sized. apply Nat.eqb_neq in H. rewrite H. reflexivity.
Qed.

Lemma bind_Return {St A B} (m : Py St A) (k : A -> Py St B) (s s' : St) (a : A) :
  m s = (Return a, s') -> bind m k s = k a s'.
Proof. unfold bind. intros ->. reflexivity. Qed.

Lemma bind_Raise {St A B} (m : Py St A) (k : A -> Py St B) (s s' : St) (e : exception) :
  m s = (Raise e, s') -> bind m k s = (Raise e, s').
Proof. unfold bind. intros ->. reflexivity. Qed.

Lemma unpack_h_2 {St} (b1 b2 : byte) (s : St) :
  unpack_h [b1; b2] s = (Return (delta16 b1 b2), s).
Proof. reflexivity. Qed.

Lemma unpack_i_4 {St} (b3 b4 b5 b6 : byte) (s : St) :
  unpack_i [b3; b4; b5; b6] s = (Return (delta32 b3 b4 b5 b6), s).
Proof. reflexivity. Qed.

Lemma unpack_BB_2 {St} (b1 b2 : byte) (s : St) :
  unpack_BB [b1; b2] s = (Return (byte_to_Z b1, byte_to_Z b2), s).
Proof. reflexivity. Qed.

(** Steps through a [let*] whose first computation is known. *)
Ltac py_step H := rewrite (bind_Return _ _ _ _ _ H); cbv beta.
Ltac py_fail H := rewrite (bind_Raise _ _ _ _ _ H); cbv beta.

(** ** One entry of a run: the body of the inner loop *)

Lemma for_body_direct (del_ab : float) (data : list float) (f : file)
    (b1 b2 : byte) (rest : list byte) :
  ahead f = [b1; b2] ++ rest ->
  delta16 b1 b2 <> -32768 ->
  for_body del_ab data f
  = (Return (data ++ [next_sample del_ab data (Direct b1 b2)]), advance 2 f).
Proof.
  intros Hf Hd. unfold for_body.
  py_step (read_ahead f [b1; b2] rest Hf).
  py_step (unpack_h_2 b1 b2 (advance (length [b1; b2]) f)).
  apply Z.eqb_neq in Hd. rewrite Hd.
  destruct data; reflexivity.
Qed.

Lemma for_body_escaped (del_ab : float) (data : list float) (f : file)
    (b3 b4 b5 b6 : byte) (rest : list byte) :
  ahead f = [Byte.x80; Byte.x00; b3; b4; b5; b6] ++ rest ->
  for_body del_ab data f
  = (Return (data ++ [next_sample del_ab data (Escaped b3 b4 b5 b6)]), advance 6 f).
Proof.
  intros Hf. unfold for_body.
  py_step (read_ahead f [Byte.x80; Byte.x00] ([b3; b4; b5; b6] ++ rest) Hf).
  py_step (unpack_h_2 Byte.x80 Byte.x00 (advance (length [Byte.x80; Byte.x00]) f)).
  change (delta16 Byte.x80 Byte.x00 =? -32768) with true. cbv iota.
  pose proof (ahead_advance f [Byte.x80; Byte.x00] _ Hf) as Hf2.
  py_step (read_ahead _ [b3; b4; b5; b6] rest Hf2).
  py_step (unpack_i_4 b3 b4 b5 b6
             (advance (length [b3; b4; b5; b6]) (advance (length [Byte.x80; Byte.x00]) f))).
  rewrite advance_advance. reflexivity.
Qed.

Lemma for_body_entry (del_ab : float) (data : list float) (f : file)
    (e : entry) (rest : list byte) :
  ahead f = entry_bytes e ++ rest ->
  entry_ok e ->
  for_body del_ab data f
  = (Return (data ++ [next_sample del_ab data e]), advance (length (entry_bytes e)) f).
Proof.
  destruct e as [b1 b2 | b3 b4 b5 b6]; simpl; intros Hf Hok.
  - apply for_body_direct with rest; assumption.
  - apply for_body_escaped with rest; assumption.
Qed.

(** A short read makes [struct.unpack] raise. *)
Lemma read_short {A} (n : nat) (decode : list byte -> A) (f : file) :
  length (take n (ahead f)) <> n ->
  exists f', read n f = (Return (take n (ahead f)), f')
             /\ content f' = content f
             /\ unpack_sized n decode (take n (ahead f)) f' = (Raise struct_error, f').
Proof.
  intros H. eexists. split; [reflexivity |]. split; [reflexivity |].
  apply unpack_sized_short. exact H.
Qed.

(** Whatever is ahead, the body either decodes one entry found there or
    raises [struct.error]; it never touches the content. *)
Lemma for_body_cases (del_ab : float) (data : list float) (f : file) :
  (exists e, entry_ok e
     /\ ahead f = entry_bytes e ++ ahead (advance (length (entry_bytes e)) f)
     /\ for_body del_ab data f
        = (Return (data ++ [next_sample del_ab data e]),
           advance (length (entry_bytes e)) f))
  \/ (exists f', for_body del_ab data f = (Raise struct_error, f')
        /\ content f' = content f).
Proof.
  destruct (decide (length (take 2 (ahead f)) = 2%nat)) as [H2 | H2].
  - pose proof (read_full 2 f H2) as Hf.
    destruct (take 2 (ahead f)) as [| b1 [| b2 [| ? ?]]] eqn:Et; try discriminate.
    destruct (decide (delta16 b1 b2 = -32768)) as [Hs | Hs].
    + apply delta16_sentinel in Hs as [-> ->].
      pose proof (ahead_advance f [Byte.x80; Byte.x00] _ Hf) as Hf2.
      change (length [Byte.x80; Byte.x00]) with 2%nat in Hf2.
      destruct (decide (length (take 4 (ahead (advance 2 f))) = 4%nat)) as [H4 | H4].
      * pose proof (read_full 4 (advance 2 f) H4) as Hf4.
        destruct (take 4 (ahead (advance 2 f)))
          as [| b3 [| b4 [| b5 [| b6 [| ? ?]]]]] eqn:Et4; try discriminate.
        rewrite advance_advance in Hf4. change (2 + 4)%nat with 6%nat in Hf4.
        left. exists (Escaped b3 b4 b5 b6). split; [exact I |].
        assert (Hall : ahead f
                       = [Byte.x80; Byte.x00; b3; b4; b5; b6] ++ ahead (advance 6 f)).
        { rewrite Hf at 1. rewrite Hf4 at 1. reflexivity. }
        split; [exact Hall |].
        apply for_body_escaped with (ahead (advance 6 f)). exact Hall.
      * right. unfold for_body.
        py_step (read_ahead f [Byte.x80; Byte.x00] _ Hf).
        py_step (unpack_h_2 Byte.x80 Byte.x00 (advance (length [Byte.x80; Byte.x00]) f)).
        change (delta16 Byte.x80 Byte.x00 =? -32768) with true. cbv iota.
        destruct (read_short 4 (fun bs => to_signed 32 (be_uint bs)) (advance 2 f) H4)
          as (f' & Hr & Hc & Hu).
        exists f'. split; [| exact Hc].
        change (length [Byte.x80; Byte.x00]) with 2%nat.
        py_step Hr. unfold unpack_i. py_fail Hu. reflexivity.
    + left. exists (Direct b1 b2). split; [exact Hs |].
      split; [exact Hf |].
      apply for_body_direct with (ahead (advance 2 f)); assumption.
  - right. unfold for_body.
    destruct (read_short 2 (fun bs => to_signed 16 (be_uint bs)) f H2)
      as (f' & Hr & Hc & Hu).
    exists f'. split; [| exact Hc].
    py_step Hr. unfold unpack_h. py_fail Hu. reflexivity.
Qed.

(** ** A run: the inner loop *)

Lemma run_samples_cons (del_ab : float) (data : list float) (e : entry) (es : list entry) :
  run_samples del_ab data (e :: es)
  = run_samples del_ab (data ++ [next_sample del_ab data e]) es.
Proof. reflexivity. Qed.

Lemma for_range_entries (del_ab : float) (es : list entry) :
  forall (data : list float) (f : file) (rest : list byte),
    ahead f = entries_bytes es ++ rest ->
    Forall entry_ok es ->
    for_range (length es) del_ab data f
    = (Return (run_samples del_ab data es), advance (length (entries_bytes es)) f).
Proof.
  induction es as [| e es IH]; intros data f rest Hf Hok.
  - simpl. unfold ret, advance. destruct f. simpl. do 2 f_equal. lia.
  - apply Forall_cons in Hok as [He Hes].
    change (entries_bytes (e :: es)) with (entry_bytes e ++ entries_bytes es) in *.
    rewrite <- app_assoc in Hf.
    change (for_range (length (e :: es)) del_ab data)
      with (let* data := for_body del_ab data in for_range (length es) del_ab data).
    py_step (for_body_entry del_ab data f e _ Hf He).
    rewrite (IH _ _ rest (ahead_advance f _ _ Hf) Hes).
    rewrite advance_advance, length_app, run_samples_cons. reflexivity.
Qed.

Lemma for_range_cases (del_ab : float) (n : nat) :
  forall (data : list float) (f : file),
    (exists es, length es = n /\ Forall entry_ok es
       /\ ahead f = entries_bytes es ++ ahead (advance (length (entries_bytes es)) f)
       /\ for_range n del_ab data f
          = (Return (run_samples del_ab data es),
             advance (length (entries_bytes es)) f))
    \/ (exists f', for_range n del_ab data f = (Raise struct_error, f')
          /\ content f' = content f).
Proof.
  induction n as [| n IH]; intros data f.
  - left. exists []. repeat split; [constructor | |].
    + simpl. unfold ahead, advance. simpl. rewrite Nat.add_0_r. reflexivity.
    + simpl. unfold ret, advance. destruct f. simpl. do 2 f_equal. lia.
  - change (for_range (S n) del_ab data)
      with (let* data := for_body del_ab data in for_range n del_ab data).
    destruct (for_body_cases del_ab data f) as [(e & He & Hf & Hb) | (f' & Hb & Hc)].
    + py_step Hb.
      destruct (IH (data ++ [next_sample del_ab data e])
                  (advance (length (entry_bytes e)) f))
        as [(es & Hn & Hes & Hf' & Hr) | (f' & Hr & Hc)].
      * left. exists (e :: es).
        change (entries_bytes (e :: es)) with (entry_bytes e ++ entries_bytes es).
        rewrite advance_advance in Hf', Hr. rewrite length_app.
        repeat split.
        -- simpl. congruence.
        -- constructor; assumption.
        -- rewrite <- app_assoc, <- Hf'. exact Hf.
        -- rewrite Hr, run_samples_cons. reflexivity.
      * right. exists f'. split; [exact Hr | exact Hc].
    + right. exists f'. py_fail Hb. split; [reflexivity | exact Hc].
Qed.

(** ** The stream: the outer loop *)

Lemma ahead_length (f : file) (bs rest : list byte) :
  ahead f = bs ++ rest -> (0 < length bs)%nat ->
  (pos f + length bs <= length (content f))%nat.
Proof.
  unfold ahead. intros H Hbs. apply (f_equal length) in H.
  rewrite length_drop, length_app in H. lia.
Qed.

Lemma samples_from_cons (del_ab : float) (data : list float) (r : RunRecord)
    (runs : list RunRecord) :
  samples_from del_ab data (r :: runs)
  = samples_from del_ab (run_samples del_ab data (deltas r)) runs.
Proof. reflexivity. Qed.

Lemma while_True_unfold (fuel : nat) (del_ab : float) (data : list float) :
  while_True (S fuel) del_ab data
  = (let* bs := read 2 in
     let* '(x, nrecs) := unpack_BB bs in
     if (x =? 0) && (nrecs =? 0) then ret data
     else
       let* data := for_range (Z.to_nat nrecs) del_ab data in
       while_True fuel del_ab data).
Proof. reflexivity. Qed.

Lemma not_terminator (r : RunRecord) :
  run_ok r -> (byte_to_Z (flag r) =? 0) && (byte_to_Z (runLength r) =? 0) = false.
Proof.
  intros (_ & Hne & _). apply not_true_is_false. rewrite header_is_terminator. exact Hne.
Qed.

Lemma stream_bytes_cons (r : RunRecord) (runs : list RunRecord) :
  stream_bytes (r :: runs)
  = [flag r; runLength r] ++ entries_bytes (deltas r) ++ stream_bytes runs.
Proof.
  unfold stream_bytes, runs_bytes, run_bytes, entries_bytes. simpl.
  rewrite <- app_assoc. reflexivity.
Qed.

Lemma while_True_runs (del_ab : float) (runs : list RunRecord) :
  forall (fuel : nat) (data : list float) (f : file) (rest : list byte),
    ahead f = stream_bytes runs ++ rest ->
    Forall run_ok runs ->
    (length runs < fuel)%nat ->
    while_True fuel del_ab data f
    = (Return (samples_from del_ab data runs), advance (length (stream_bytes runs)) f).
Proof.
  induction runs as [| r runs IH]; intros fuel data f rest Hf Hok Hfuel;
    (destruct fuel as [| fuel]; [simpl in Hfuel; lia |]); rewrite while_True_unfold.
  - change (stream_bytes []) with [Byte.x00; Byte.x00] in *.
    py_step (read_ahead f [Byte.x00; Byte.x00] rest Hf).
    py_step (unpack_BB_2 Byte.x00 Byte.x00 (advance (length [Byte.x00; Byte.x00]) f)).
    reflexivity.
  - apply Forall_cons in Hok as [Hr Hruns].
    assert (Hf' : ahead f = [flag r; runLength r]
                            ++ entries_bytes (deltas r) ++ stream_bytes runs ++ rest).
    { rewrite Hf, stream_bytes_cons, <- !app_assoc. reflexivity. }
    py_step (read_ahead f [flag r; runLength r] _ Hf').
    py_step (unpack_BB_2 (flag r) (runLength r) (advance (length [flag r; runLength r]) f)).
    rewrite (not_terminator r Hr), byte_to_Z_nat.
    destruct Hr as (Hlen & _ & Hes). rewrite <- Hlen.
    pose proof (ahead_advance f _ _ Hf') as Hf2.
    py_step (for_range_entries del_ab (deltas r) data _ _ Hf2 Hes).
    rewrite (IH fuel _ _ rest (ahead_advance _ _ _ Hf2) Hruns) by (simpl in Hfuel; lia).
    rewrite !advance_advance, samples_from_cons, stream_bytes_cons, !length_app.
    do 2 f_equal; lia.
Qed.

(** Whatever is ahead, the loop either finds a stream of run records closed
    by the terminator and returns its samples, or raises [struct.error]; with
    more fuel than the file has bytes left it never runs out of fuel. *)
Lemma while_True_cases (del_ab : float) (fuel : nat) :
  forall (data : list float) (f : file),
    (length (content f) - pos f < fuel)%nat ->
    (exists runs, Forall run_ok runs
       /\ ahead f = stream_bytes runs ++ ahead (advance (length (stream_bytes runs)) f)
       /\ while_True fuel del_ab data f
          = (Return (samples_from del_ab data runs),
             advance (length (stream_bytes runs)) f))
    \/ (exists f', while_True fuel del_ab data f = (Raise struct_error, f')
          /\ content f' = content f).
Proof.
  induction fuel as [| fuel IH]; intros data f Hfuel; [lia |].
  rewrite while_True_unfold.
  destruct (decide (length (take 2 (ahead f)) = 2%nat)) as [H2 | H2].
  - pose proof (read_full 2 f H2) as Hf.
    destruct (take 2 (ahead f)) as [| b1 [| b2 [| ? ?]]] eqn:Et; try discriminate.
    py_step (read_ahead f [b1; b2] _ Hf).
    py_step (unpack_BB_2 b1 b2 (advance (length [b1; b2]) f)).
    change (length [b1; b2]) with 2%nat.
    destruct ((byte_to_Z b1 =? 0) && (byte_to_Z b2 =? 0)) eqn:Hterm.
    + apply header_is_terminator in Hterm as [-> ->].
      left. exists []. split; [constructor |]. split; [exact Hf | reflexivity].
    + assert (Hne : ~ (b1 = Byte.x00 /\ b2 = Byte.x00)).
      { rewrite <- header_is_terminator, Hterm. discriminate. }
      rewrite byte_to_Z_nat.
      destruct (for_range_cases del_ab (byte_to_nat b2) data (advance 2 f))
        as [(es & Hn & Hes & Hf2 & Hr) | (f' & Hr & Hc)].
      * py_step Hr. rewrite advance_advance in Hf2 |- *.
        pose proof (ahead_length f [b1; b2] _ Hf) as Hlen. simpl in Hlen.
        destruct (IH (run_samples del_ab data es)
                    (advance (2 + length (entries_bytes es)) f))
          as [(runs & Hruns & Hf3 & Hw) | (f' & Hw & Hc)].
        { simpl. lia. }
        -- left. exists ({| flag := b1; runLength := b2; deltas := es |} :: runs).
           rewrite stream_bytes_cons, !length_app. simpl deltas. simpl flag.
           simpl runLength. rewrite advance_advance in Hf3, Hw.
           change (length [b1; b2]) with 2%nat.
           rewrite <- Nat.add_assoc in Hf3, Hw.
           split; [| split].
           ++ constructor; [| exact Hruns]. repeat split; assumption.
           ++ rewrite <- !app_assoc, <- Hf3, <- Hf2. exact Hf.
           ++ rewrite Hw. reflexivity.
        -- right. exists f'. split; [exact Hw | exact Hc].
      * right. exists f'. py_fail Hr. split; [reflexivity | exact Hc].
  - right.
    destruct (read_short 2 (fun bs => (be_uint (take 1 bs), be_uint (drop 1 bs))) f H2)
      as (f' & Hr & Hc & Hu).
    exists f'. split; [| exact Hc].
    py_step Hr. unfold unpack_BB. py_fail Hu. reflexivity.
Qed.

(** ** [chConverter] *)

Lemma scale_before_stream : (0x127C + 8 <= 0x1800)%nat.
Proof. apply Nat.leb_le. vm_compute. reflexivity. Qed.

Lemma length_runs_stream (runs : list RunRecord) :
  (length runs < length (stream_bytes runs))%nat.
Proof.
  induction runs as [| r runs IH].
  - simpl. lia.
  - rewrite stream_bytes_cons, !length_app. simpl. lia.
Qed.

Lemma seek_eq (n : nat) (f : file) : seek n f = (Return tt, File (content f) n).
Proof. reflexivity. Qed.

Lemma read_eq (n : nat) (f : file) :
  read n f = (Return (take n (ahead f)), advance (length (take n (ahead f))) f).
Proof. reflexivity. Qed.

(** The function after its first [seek]. *)
Lemma chConverter_unfold (f : file) :
  chConverter f
  = (let* bs := read 8 in
     let* del_ab := unpack_d bs in
     seek 0x1800 ;;;
     fun file_ => while_True (S (length (content file_))) del_ab [] file_)
      (File (content f) 0x127C).
Proof.
  unfold chConverter. py_step (seek_eq 0x127C f). reflexivity.
Qed.

(** The function up to the loop, when the scale factor can be read. *)
Lemma chConverter_start (f : file) :
  (0x127C + 8 <= length (content f))%nat ->
  chConverter f
  = while_True (S (length (content f))) (scale_of (content f)) []
      (File (content f) 0x1800).
Proof.
  intros Hlen. rewrite chConverter_unfold.
  assert (H8 : length (take 8 (drop 0x127C (content f))) = 8%nat).
  { rewrite length_take, length_drop. lia. }
  py_step (read_eq 8 (File (content f) 0x127C)).
  unfold ahead. cbn [content pos].
  assert (Hu : forall g : file,
             unpack_d (take 8 (drop 0x127C (content f))) g
             = (Return (scale_of (content f)), g)).
  { intros g. unfold unpack_d, scale_of. rewrite unpack_sized_ok by exact H8.
    reflexivity. }
  py_step (Hu (advance (length (take 8 (drop 0x127C (content f))))
                 (File (content f) 0x127C))).
  py_step (seek_eq 0x1800
             (advance (length (take 8 (drop 0x127C (content f))))
                (File (content f) 0x127C))).
  unfold advance. cbn [content pos]. reflexivity.
Qed.

(** Without the eight bytes of the scale factor, [struct.unpack] raises. *)
Lemma chConverter_no_scale (f : file) :
  ~ (0x127C + 8 <= length (content f))%nat ->
  exists f', chConverter f = (Raise struct_error, f') /\ content f' = content f.
Proof.
  intros Hlen. rewrite chConverter_unfold.
  assert (H8 : length (take 8 (ahead (File (content f) 0x127C))) <> 8%nat).
  { unfold ahead. cbn [content pos]. rewrite length_take, length_drop. lia. }
  destruct (read_short 8 (fun bs => double_of_bits (be_uint bs)) _ H8)
    as (f' & Hr & Hc & Hu).
  exists f'. split; [| exact Hc].
  py_step Hr. unfold unpack_d. py_fail Hu. reflexivity.
Qed.

(** Soundness: a stream of run records closed by the terminator decodes to
    the samples of its records. *)
Lemma chConverter_sound (hdr : list byte) (runs : list RunRecord)
    (rest : list byte) (p : nat) :
  length hdr = 0x1800%nat ->
  Forall run_ok runs ->
  chConverter (File (hdr ++ stream_bytes runs ++ rest) p)
  = (Return (samples (scale_of (hdr ++ stream_bytes runs ++ rest)) runs),
     File (hdr ++ stream_bytes runs ++ rest) (0x1800 + length (stream_bytes runs))).
Proof.
  intros Hhdr Hok. pose proof scale_before_stream as Hsc.
  pose proof (length_runs_stream runs) as Hruns.
  rewrite chConverter_start by (simpl; rewrite !length_app; lia).
  simpl content.
  rewrite (while_True_runs _ runs _ _ _ rest).
  - reflexivity.
  - unfold ahead. simpl. rewrite drop_app_length' by (symmetry; exact Hhdr). reflexivity.
  - exact Hok.
  - rewrite !length_app. lia.
Qed.

(** Completeness and totality: on any file, [chConverter] either returns,
    and then what lies at 0x1800 is a stream of run records closed by the
    terminator whose samples it returns, or raises [struct.error]. *)
Lemma chConverter_cases (f : file) :
  (exists runs, Forall run_ok runs
     /\ drop 0x1800 (content f)
        = stream_bytes runs ++ drop (0x1800 + length (stream_bytes runs)) (content f)
     /\ chConverter f
        = (Return (samples (scale_of (content f)) runs),
           File (content f) (0x1800 + length (stream_bytes runs))))
  \/ (exists f', chConverter f = (Raise struct_error, f') /\ content f' = content f).
Proof.
  destruct (le_lt_dec (0x127C + 8) (length (content f))) as [Hlen | Hlen].
  - rewrite (chConverter_start f Hlen).
    destruct (while_True_cases (scale_of (content f)) (S (length (content f))) []
                (File (content f) 0x1800))
      as [(runs & Hok & Hf & Hw) | (f' & Hw & Hc)].
    + simpl. lia.
    + left. exists runs. split; [exact Hok |]. split; [exact Hf | exact Hw].
    + right. exists f'. split; [exact Hw | exact Hc].
  - right. apply chConverter_no_scale. lia.
Qed.

Lemma stream_bytes_length (runs : list RunRecord) : (2 <= length (stream_bytes runs))%nat.
Proof.
  unfold stream_bytes. rewrite length_app. simpl. lia.
Qed.

Lemma chConverter_sound_at (f : file) (runs : list RunRecord) (rest : list byte) :
  Forall run_ok runs ->
  drop 0x1800 (content f) = stream_bytes runs ++ rest ->
  chConverter f
  = (Return (samples (scale_of (content f)) runs),
     File (content f) (0x1800 + length (stream_bytes runs))).
Proof.
  intros Hok Hd. destruct f as [bytes p]. simpl in *.
  assert (Hlen : length (take 0x1800 bytes) = 0x1800%nat).
  { apply length_take_le. apply (f_equal length) in Hd.
    rewrite length_drop, length_app in Hd.
    pose proof (stream_bytes_length runs). lia. }
  pose proof (chConverter_sound (take 0x1800 bytes) runs rest p Hlen Hok) as H.
  rewrite <- Hd, take_drop in H. exact H.
Qed.

Lemma run_samples_length (del_ab : float) (es : list entry) :
  forall data, length (run_samples del_ab data es) = (length data + length es)%nat.
Proof.
  induction es as [| e es IH]; intros data.
  - simpl. lia.
  - rewrite run_samples_cons, IH, length_app. simpl. lia.
Qed.

Lemma samples_from_length (del_ab : float) (runs : list RunRecord) :
  forall data,
    Forall run_ok runs ->
    length (samples_from del_ab data runs) = (length data + total_runLength runs)%nat.
Proof.
  induction runs as [| r runs IH]; intros data Hok.
  - unfold total_runLength. simpl. lia.
  - apply Forall_cons in Hok as [(Hlen & _) Hruns].
    rewrite samples_from_cons, IH by exact Hruns.
    rewrite run_samples_length, Hlen. unfold total_runLength. simpl. lia.
Qed.

Lemma samples_from_app (del_ab : float) (runs1 runs2 : list RunRecord) (data : list float) :
  samples_from del_ab data (runs1 ++ runs2)
  = samples_from del_ab (samples_from del_ab data runs1) runs2.
Proof. unfold samples_from. apply fold_left_app. Qed.

(** The samples depend on the entries of the run records only. *)
Lemma samples_from_deltas (del_ab : float) (runs runs' : list RunRecord) :
  map deltas runs = map deltas runs' ->
  forall data, samples_from del_ab data runs = samples_from del_ab data runs'.
Proof.
  revert runs'. induction runs as [| r runs IH]; intros [| r' runs'] H data;
    try discriminate; [reflexivity |].
  simpl in H. injection H as Hr Hruns.
  rewrite !samples_from_cons, Hr. apply IH. exact Hruns.
Qed.

(** The fuel of the loop is never exhausted: [chConverter] returns or
    raises. *)
Lemma chConverter_total (f : file) : fst (chConverter f) <> OutOfFuel.
Proof.
  destruct (chConverter_cases f) as [(runs & _ & _ & H) | (f' & H & _)];
    rewrite H; discriminate.
Qed.

(** The function seeks before it reads: where the file object stood does
    not matter. *)
Lemma chConverter_seeks (bytes : list byte) (p q : nat) :
  chConverter (File bytes p) = chConverter (File bytes q).
Proof. rewrite !chConverter_unfold. reflexivity. Qed.

Lemma chConverter_content (f : file) : content (snd (chConverter f)) = content f.
Proof.
  destruct (chConverter_cases f) as [(runs & _ & _ & H) | (f' & H & Hc)];
    rewrite H; simpl; [reflexivity | exact Hc].
Qed.

(** ** The escape sentinel *)

(** C1, as the specification states it, fails: in the stream [escaped_run]
    with scale 0.1 the second escape comes after two samples, 100.0 and
    101.0, and its 32-bit value is -50; [chConverter] appends 0.1 * -50 =
    -5.0, where the claim has 101.0 + 0.1 * -50 = 96.0. *)
Lemma escape_after_samples_counterexample :
  fst (chConverter (File (trace_file tenth escaped_run) 0))
  = Return [100%float; 101%float; (-5)%float]
  /\ delta32 Byte.xff Byte.xff Byte.xff Byte.xce = -50
  /\ spec_next_sample (scale_of (trace_file tenth escaped_run)) [100%float; 101%float]
       (Escaped Byte.xff Byte.xff Byte.xff Byte.xce) = 96%float
  /\ (-5)%float <> 96%float.
Proof.
  split; [vm_compute; reflexivity |].
  split; [reflexivity |].
  split; [vm_compute; reflexivity |].
  intros H. apply (f_equal (fun x => (x =? 96)%float)) in H.
  vm_compute in H. discriminate H.
Qed.

(** C1, amended: when the 16-bit value read by the inner loop is the escape
    sentinel -32768 (the bytes 80 00), the signed 32-bit big-endian value
    that follows is always taken as absolute: the sample appended is
    [del_ab * delta32], whether [data] is empty or already holds samples,
    and the six bytes are consumed. *)
Theorem escape_is_absolute (del_ab : float) (data : list float) (f : file)
    (b3 b4 b5 b6 : byte) (rest : list byte) :
  ahead f = [Byte.x80; Byte.x00; b3; b4; b5; b6] ++ rest ->
  for_body del_ab data f
  = (Return (data ++ [(del_ab * float_of_Z (delta32 b3 b4 b5 b6))%float]),
     advance 6 f).
Proof.
  intros Hf. rewrite (for_body_escaped del_ab data f b3 b4 b5 b6 rest Hf). reflexivity.
Qed.

Lemma escape_is_absolute_witness :
  for_body (scale_of (trace_file tenth escaped_run)) [100%float; 101%float]
    (File (trace_file tenth escaped_run) (0x1800 + 10))
  = (Return ([100%float; 101%float]
             ++ [(scale_of (trace_file tenth escaped_run)
                  * float_of_Z (delta32 Byte.xff Byte.xff Byte.xff Byte.xce))%float]),
     advance 6 (File (trace_file tenth escaped_run) (0x1800 + 10))).
Proof.
  apply (escape_is_absolute (scale_of (trace_file tenth escaped_run))
           [100%float; 101%float]
           (File (trace_file tenth escaped_run) (0x1800 + 10))
           Byte.xff Byte.xff Byte.xff Byte.xce [Byte.x00; Byte.x00]).
  vm_compute. reflexivity.
Defined.

(** ** Direct deltas *)



(** ** Termination of the decoder *)

Lemma direct_entries_ok :
  Forall entry_ok
    [Direct Byte.x00 Byte.x0a; Direct Byte.xff Byte.xfb; Direct Byte.x00 Byte.x02].
Proof.
  repeat (apply Forall_cons; split); [| | | constructor];
    simpl; vm_compute; discriminate.
Qed.

Lemma plain_records_ok : Forall run_ok plain_records.
Proof.
  apply Forall_cons. split; [| constructor].
  split; [reflexivity |]. split; [| exact direct_entries_ok].
  simpl. intros [H _]. discriminate H.
Qed.

Lemma plain_records_7f_ok : Forall run_ok plain_records_7f.
Proof.
  apply Forall_cons. split; [| constructor].
  split; [reflexivity |]. split; [| exact direct_entries_ok].
  simpl. intros [H _]. discriminate H.
Qed.

(** C4: [chConverter] returns exactly when the stream at 0x1800 is a
    sequence of complete run records followed by a header whose two bytes
    are zero; it then returns the samples accumulated over those records.
    On every other file (the stream ends before that header is read) it
    raises [struct.error], the error of a truncated stream, and never
    completes normally; the streams [cut_in_run] and [cut_before_terminator]
    are two such files. *)
Theorem chConverter_terminates_at_sentinel (f : file) :
  ((exists data f', chConverter f = (Return data, f')) <-> reaches_terminator (content f))
  /\ (forall runs rest,
        Forall run_ok runs ->
        drop 0x1800 (content f) = stream_bytes runs ++ rest ->
        fst (chConverter f) = Return (samples (scale_of (content f)) runs))
  /\ (~ reaches_terminator (content f) -> fst (chConverter f) = Raise struct_error)
  /\ fst (chConverter (File (trace_file half cut_in_run) 0)) = Raise struct_error
  /\ fst (chConverter (File (trace_file half cut_before_terminator) 0))
     = Raise struct_error.
Proof.
  split; [| split; [| split; [| split]]].
  - split.
    + intros (data & f' & H).
      destruct (chConverter_cases f) as [(runs & Hok & Hd & _) | (f'' & H' & _)].
      * exists runs. eexists. split; [exact Hok | exact Hd].
      * rewrite H in H'. discriminate H'.
    + intros (runs & rest & Hok & Hd).
      do 2 eexists. apply (chConverter_sound_at f runs rest Hok Hd).
  - intros runs rest Hok Hd. rewrite (chConverter_sound_at f runs rest Hok Hd).
    reflexivity.
  - intros Hnot.
    destruct (chConverter_cases f) as [(runs & Hok & Hd & _) | (f' & H & _)].
    + exfalso. apply Hnot. exists runs. eexists. split; [exact Hok | exact Hd].
    + rewrite H. reflexivity.
  - vm_compute. reflexivity.
  - vm_compute. reflexivity.
Qed.

Lemma chConverter_terminates_at_sentinel_witness :
  fst (chConverter (File (trace_file half plain_run) 0))
  = Return (samples (scale_of (trace_file half plain_run)) plain_records).
Proof.
  apply (proj1 (proj2 (chConverter_terminates_at_sentinel
                         (File (trace_file half plain_run) 0)))
           plain_records []).
  - exact plain_records_ok.
  - vm_compute. reflexivity.
Defined.

(** ** Determinism *)

(** C8: the samples [chConverter] returns depend on the bytes of the file
    only: not on where the file object stands when the function is called,
    and a second run on the file object the first run leaves behind gives
    the same outcome as the first. *)
Theorem chConverter_deterministic (bytes : list byte) (p q : nat) :
  fst (chConverter (File bytes p)) = fst (chConverter (File bytes q))
  /\ fst (chConverter (snd (chConverter (File bytes p))))
     = fst (chConverter (File bytes p)).
Proof.
  split.
  - rewrite (chConverter_seeks bytes p q). reflexivity.
  - pose proof (chConverter_content (File bytes p)) as Hc.
    destruct (snd (chConverter (File bytes p))) as [bytes' p'].
    simpl in Hc. subst bytes'. rewrite (chConverter_seeks bytes p' p). reflexivity.
Qed.

(** ** The number of samples *)

(** C9: when the stream reaches the terminator, the list returned has as
    many samples as the [runLength] bytes of the run records before the
    terminator add up to: every entry, direct or escaped, gives one sample.
    Every return of [chConverter] comes from such a stream. *)
Theorem chConverter_sample_count (f : file) :
  (forall runs rest,
     Forall run_ok runs ->
     drop 0x1800 (content f) = stream_bytes runs ++ rest ->
     exists data, fst (chConverter f) = Return data
                  /\ length data = total_runLength runs)
  /\ (forall data f',
        chConverter f = (Return data, f') ->
        exists runs rest,
          Forall run_ok runs
          /\ drop 0x1800 (content f) = stream_bytes runs ++ rest
          /\ length data = total_runLength runs).
Proof.
  split.
  - intros runs rest Hok Hd. eexists.
    rewrite (chConverter_sound_at f runs rest Hok Hd). split; [reflexivity |].
    unfold samples. rewrite samples_from_length by exact Hok. reflexivity.
  - intros data f' H.
    destruct (chConverter_cases f) as [(runs & Hok & Hd & H') | (f'' & H' & _)].
    + exists runs. eexists. split; [exact Hok |]. split; [exact Hd |].
      rewrite H in H'. injection H' as -> _.
      unfold samples. rewrite samples_from_length by exact Hok. reflexivity.
    + rewrite H in H'. discriminate H'.
Qed.

Lemma chConverter_sample_count_witness :
  exists data,
    fst (chConverter (File (trace_file half plain_run) 0)) = Return data
    /\ length data = total_runLength plain_records.
Proof.
  apply (proj1 (chConverter_sample_count (File (trace_file half plain_run) 0))
           plain_records []).
  - exact plain_records_ok.
  - vm_compute. reflexivity.
Defined.

(** ** The flag byte *)

Lemma run_ok_empty (x : byte) :
  x <> Byte.x00 -> run_ok {| flag := x; runLength := Byte.x00; deltas := [] |}.
Proof.
  intros Hx. repeat split.
  - intros [H _]. exact (Hx H).
  - constructor.
Qed.

(** C10: a run header with a nonzero flag byte and a zero runLength byte
    gives no sample and does not end the decoding, the records after it are
    decoded as if it were not there; and two streams whose run records have
    the same entries (and so the same runLength bytes), whatever their flag
    bytes, decode to the same samples. *)
Theorem flag_byte_is_ignored (f : file) :
  (forall runs1 runs2 x rest,
     x <> Byte.x00 ->
     Forall run_ok runs1 -> Forall run_ok runs2 ->
     drop 0x1800 (content f)
     = stream_bytes (runs1 ++ {| flag := x; runLength := Byte.x00; deltas := [] |} :: runs2)
       ++ rest ->
     fst (chConverter f) = Return (samples (scale_of (content f)) (runs1 ++ runs2)))
  /\ (forall g runs runs' rest rest',
        Forall run_ok runs -> Forall run_ok runs' ->
        map deltas runs = map deltas runs' ->
        scale_of (content f) = scale_of (content g) ->
        drop 0x1800 (content f) = stream_bytes runs ++ rest ->
        drop 0x1800 (content g) = stream_bytes runs' ++ rest' ->
        fst (chConverter f) = fst (chConverter g)).
Proof.
  split.
  - intros runs1 runs2 x rest Hx Hok1 Hok2 Hd.
    assert (Hok : Forall run_ok
                    (runs1 ++ {| flag := x; runLength := Byte.x00; deltas := [] |} :: runs2)).
    { apply Forall_app. split; [exact Hok1 |].
      constructor; [apply run_ok_empty; exact Hx | exact Hok2]. }
    rewrite (chConverter_sound_at f _ rest Hok Hd).
    unfold samples. rewrite !samples_from_app, samples_from_cons. reflexivity.
  - intros g runs runs' rest rest' Hok Hok' Hdeltas Hscale Hd Hd'.
    rewrite (chConverter_sound_at f runs rest Hok Hd).
    rewrite (chConverter_sound_at g runs' rest' Hok' Hd').
    simpl. rewrite Hscale. unfold samples.
    rewrite (samples_from_deltas _ runs runs' Hdeltas). reflexivity.
Qed.

Lemma flag_byte_is_ignored_witness :
  fst (chConverter flagged_file)
  = Return (samples (scale_of (content flagged_file)) ([] ++ plain_records_7f))
  /\ fst (chConverter flagged_file)
     = fst (chConverter (File (trace_file half (Byte.x09 :: Byte.x00 :: plain_run)) 0)).
Proof.
  pose proof (flag_byte_is_ignored flagged_file) as [Hskip Hflag].
  split.
  - apply (Hskip [] plain_records_7f Byte.x05 []).
    + discriminate.
    + constructor.
    + exact plain_records_7f_ok.
    + vm_compute. reflexivity.
  - apply (Hflag (File (trace_file half (Byte.x09 :: Byte.x00 :: plain_run)) 0)
             ({| flag := Byte.x05; runLength := Byte.x00; deltas := [] |}
              :: plain_records_7f)
             ({| flag := Byte.x09; runLength := Byte.x00; deltas := [] |}
              :: plain_records) [] []).
    + apply Forall_cons. split; [apply run_ok_empty; discriminate |].
      exact plain_records_7f_ok.
    + apply Forall_cons. split; [apply run_ok_empty; discriminate |].
      exact plain_records_ok.
    + reflexivity.
    + vm_compute. reflexivity.
    + vm_compute. reflexivity.
    + vm_compute. reflexivity.
Defined.

(** ** [CHFile]: the version gate *)

Lemma on_file_eq {A} (m : Py file A) (md : gmap string value) (f f' : file)
    (r : outcome A) :
  m f = (r, f') -> on_file m (md, f) = (r, (md, f')).
Proof. unfold on_file. simpl. intros ->. reflexivity. Qed.

Lemma unpack_UINT8 {St} (b : byte) (s : St) :
  unpack UINT8 [b] s = (Return (IInt (byte_to_Z b)), s).
Proof. reflexivity. Qed.

Lemma unpack_STRING {St} (bs : list byte) (s : St) :
  unpack (STRING (length bs)) bs s = (Return (IBytes bs), s).
Proof.
  unfold unpack. rewrite unpack_sized_ok by reflexivity. reflexivity.
Qed.

Section VersionGate.

Variable int : list byte -> option Z.
Variable parse_utf16_string : Py file string.
Variable strptime : string -> string -> option (list Z).

(** The header up to the version check: the length byte [n], then the [n]
    bytes [vs] of the version string. *)
Lemma _parse_header_version (n : byte) (vs rest : list byte)
    (md : gmap string value) (v : Z) :
  byte_to_nat n = length vs ->
  int vs = Some v ->
  _parse_header int parse_utf16_string strptime (md, File (n :: vs ++ rest) 0)
  = (if decide (v ∉ supported_versions) then
       raise (ValueError ("Unsupported file version " +:+ pretty v))
     else
       set_item "magic_number_version" (VInt v) ;;;
       parse_fields parse_utf16_string fields ;;;
       let* date := get_item "date" in
       match date with
       | VStr date =>
           match strptime date "%d-%b-%y, %H:%M:%S" with
           | Some t => set_item "datetime" (VTime t)
           | None => raise (ValueError "time data does not match format")
           end
       | _ => raise TypeError
       end)
      (md, File (n :: vs ++ rest) (1 + length vs)).
Proof.
  intros Hn Hint. unfold _parse_header.
  assert (H1 : ahead (File (n :: vs ++ rest) 0) = [n] ++ vs ++ rest) by reflexivity.
  py_step (on_file_eq _ md _ _ _ (read_ahead _ _ _ H1)).
  py_step (unpack_UINT8 (St := state) n
             (md, advance (length [n]) (File (n :: vs ++ rest) 0))).
  rewrite byte_to_Z_nat, Hn.
  pose proof (ahead_advance _ _ _ H1) as H2.
  py_step (on_file_eq _ md _ _ _ (read_ahead _ _ _ H2)).
  py_step (unpack_STRING (St := state) vs
             (md, advance (length vs)
                    (advance (length [n]) (File (n :: vs ++ rest) 0)))).
  rewrite Hint. reflexivity.
Qed.

End VersionGate.

(** C5: when the length-prefixed version string at the start of the file
    reads as an integer other than 179, [_parse_header] raises the
    [ValueError] of an unsupported version.  The file object is then just
    past the version string and [metadata] is unchanged: no entry of the
    field table was read, whatever follows in the file and whatever the
    readers of the fields would do. *)
Theorem unsupported_version_raises_first
    (int : list byte -> option Z) (parse_utf16_string : Py file string)
    (strptime : string -> string -> option (list Z))
    (n : byte) (vs rest : list byte) (md : gmap string value) (v : Z) :
  byte_to_nat n = length vs ->
  int vs = Some v ->
  v <> 179 ->
  _parse_header int parse_utf16_string strptime (md, File (n :: vs ++ rest) 0)
  = (Raise (ValueError ("Unsupported file version " +:+ pretty v)),
     (md, File (n :: vs ++ rest) (1 + length vs))).
Proof.
  intros Hn Hint Hv.
  rewrite (_parse_header_version int parse_utf16_string strptime n vs rest md v Hn Hint).
  destruct (decide (v ∉ supported_versions)) as [_ | Hin]; [reflexivity |].
  exfalso. apply Hin. unfold supported_versions. rewrite elem_of_singleton. exact Hv.
Qed.

Lemma unsupported_version_raises_first_witness :
  _parse_header decimal_int (ret EmptyString) (fun _ _ => None)
    (∅, File (Byte.x03 :: version_130 ++ [Byte.xff; Byte.xff]) 0)
  = (Raise (ValueError ("Unsupported file version " +:+ pretty 130)),
     (∅, File (Byte.x03 :: version_130 ++ [Byte.xff; Byte.xff]) (1 + length version_130))).
Proof.
  apply (unsupported_version_raises_first decimal_int (ret EmptyString) (fun _ _ => None)
           Byte.x03 version_130 [Byte.xff; Byte.xff] ∅ 130).
  - reflexivity.
  - reflexivity.
  - lia.
Defined.

(** With the supported version the field table is read: on a file that ends
    after the version string "179", the first field, at offset 252, cannot
    be unpacked. *)
Example supported_version_reads_fields :
  _parse_header decimal_int (ret EmptyString) (fun _ _ => None)
    (∅, File [Byte.x03; Byte.x31; Byte.x37; Byte.x39] 0)
  = (Raise struct_error,
     ({[ "magic_number_version" := VInt 179 ]},
      File [Byte.x03; Byte.x31; Byte.x37; Byte.x39] 252)).
Proof. vm_compute. reflexivity. Qed.

(** ** Facts about binary64 arithmetic *)

Lemma float_mul_comm (x y : float) : (x * y)%float = (y * x)%float.
Proof.
  apply Prim2SF_inj. rewrite !FloatAxioms.mul_spec. unfold SF64mul, SFmul.
  destruct (Prim2SF x) as [sx | sx | | sx mx ex], (Prim2SF y) as [sy | sy | | sy my ey];
    try reflexivity; rewrite (xorb_comm sx sy); try reflexivity.
  rewrite (Pos.mul_comm mx my), (Z.add_comm ex ey). reflexivity.
Qed.






(** ** [CHFile]: the raw samples *)

Lemma length_le_doubles (n : nat) : forall bs, length (le_doubles n bs) = n.
Proof.
  induction n as [| n IH]; intros bs; simpl; [reflexivity | rewrite IH; reflexivity].
Qed.

Lemma le_doubles_concat (raws : list (list byte)) (rest : list byte) :
  Forall (fun c => length c = 8%nat) raws ->
  le_doubles (length raws) (concat raws ++ rest)
  = map (fun c => double_of_bits (le_uint c)) raws.
Proof.
  induction 1 as [| c raws Hc _ IH]; [reflexivity |].
  cbn [length le_doubles concat map]. rewrite <- app_assoc.
  rewrite take_app_length', drop_app_length' by (symmetry; exact Hc).
  rewrite IH. reflexivity.
Qed.

Lemma get_item_eq (key : string) (v : value) (md : gmap string value) (f : file) :
  md !! key = Some v -> get_item key (md, f) = (Return v, (md, f)).
Proof. unfold get_item. simpl. intros ->. reflexivity. Qed.

Lemma numpy_fromfile_eq (bytes : list byte) :
  (data_start <= length bytes)%nat ->
  numpy_fromfile ((Z.of_nat (length bytes) - Z.of_nat data_start) `div` 8)
    (File bytes data_start)
  = (Return (le_doubles (n_doubles (length bytes)) (drop data_start bytes)),
     File bytes (data_start + 8 * n_doubles (length bytes))).
Proof.
  intros Hlen. unfold numpy_fromfile, n_doubles. cbn [content pos].
  rewrite length_drop.
  assert (Hn : Z.to_nat ((Z.of_nat (length bytes) - Z.of_nat data_start) `div` 8)
               = ((length bytes - data_start) / 8)%nat).
  { rewrite <- Nat2Z.inj_sub by exact Hlen.
    change 8 with (Z.of_nat 8). rewrite <- Nat2Z.inj_div, Nat2Z.id. reflexivity. }
  assert (Hpos : ((Z.of_nat (length bytes) - Z.of_nat data_start) `div` 8 <? 0) = false).
  { apply Z.ltb_ge. apply Z.div_pos; lia. }
  rewrite Hpos, Hn, Nat.min_id. reflexivity.
Qed.

Lemma _parse_data_eq (md : gmap string value) (bytes : list byte) (p : nat) (ys : float) :
  (data_start <= length bytes)%nat ->
  md !! "yscaling" = Some (VFloat ys) ->
  _parse_data (md, File bytes p)
  = (Return (map (fun v => (v * ys)%float)
               (le_doubles (n_doubles (length bytes)) (drop data_start bytes))),
     (md, File bytes (data_start + 8 * n_doubles (length bytes)))).
Proof.
  intros Hlen Hys. unfold _parse_data.
  assert (H1 : seek_end (File bytes p) = (Return tt, File bytes (length bytes)))
    by reflexivity.
  py_step (on_file_eq _ md _ _ _ H1).
  assert (H2 : tell (File bytes (length bytes))
               = (Return (length bytes), File bytes (length bytes))) by reflexivity.
  py_step (on_file_eq _ md _ _ _ H2).
  py_step (on_file_eq _ md _ _ _ (seek_eq data_start (File bytes (length bytes)))).
  cbn [content].
  py_step (on_file_eq _ md _ _ _ (numpy_fromfile_eq bytes Hlen)).
  py_step (get_item_eq "yscaling" _ md
             (File bytes (data_start + 8 * n_doubles (length bytes))) Hys).
  reflexivity.
Qed.

Lemma data_start_value : Z.of_nat data_start = 6144.
Proof. vm_compute. reflexivity. Qed.

Lemma length_concat_doubles (raws : list (list byte)) :
  Forall (fun c => length c = 8%nat) raws ->
  length (concat raws) = (8 * length raws)%nat.
Proof.
  induction 1 as [| c raws Hc _ IH]; [reflexivity |].
  cbn [concat length]. rewrite length_app, Hc, IH. lia.
Qed.

(** C3, as the specification states it, fails: [ragged_file] has 12 bytes
    after the data start, which is no multiple of 8, and [_parse_data]
    raises nothing: it returns the one whole sample, scaled. *)
Lemma ragged_file_counterexample :
  (Z.of_nat (length ragged_file) - 6144) `mod` 8 = 4
  /\ fst (_parse_data (yscaling_two, File ragged_file 0)) = Return [2%float].
Proof.
  split; vm_compute; reflexivity.
Qed.

(** C3, amended: on a file of at least 6144 bytes, [_parse_data] returns
    floor((totalLength - 6144) / 8) samples, the quotient of the floor
    division [//]; bytes left over after the last whole sample are ignored,
    and no error is raised for them. *)
Theorem sample_count_is_floor (md : gmap string value) (bytes : list byte) (p : nat)
    (ys : float) :
  6144 <= Z.of_nat (length bytes) ->
  md !! "yscaling" = Some (VFloat ys) ->
  exists samples,
    fst (_parse_data (md, File bytes p)) = Return samples
    /\ Z.of_nat (length samples) = (Z.of_nat (length bytes) - 6144) `div` 8.
Proof.
  intros Hlen Hys. rewrite <- data_start_value in Hlen |- *.
  assert (Hlen' : (data_start <= length bytes)%nat) by lia.
  eexists. rewrite (_parse_data_eq md bytes p ys Hlen' Hys). split; [reflexivity |].
  rewrite length_map, length_le_doubles. unfold n_doubles.
  rewrite Nat2Z.inj_div, Nat2Z.inj_sub by exact Hlen'. reflexivity.
Qed.

Lemma sample_count_is_floor_witness :
  exists samples,
    fst (_parse_data (yscaling_two, File ragged_file 0)) = Return samples
    /\ Z.of_nat (length samples) = (Z.of_nat (length ragged_file) - 6144) `div` 8.
Proof.
  apply (sample_count_is_floor yscaling_two ragged_file 0 2%float).
  - vm_compute. discriminate.
  - reflexivity.
Defined.

(** C6: on a file made of 6144 header bytes followed by N little-endian
    doubles, [_parse_data] returns exactly N samples, the i-th being
    [metadata["yscaling"]] times the i-th stored double: one binary64
    multiplication and nothing else. *)
Theorem raw_samples_are_scaled (md : gmap string value) (header : list byte)
    (raws : list (list byte)) (ys : float) (p : nat) :
  length header = data_start ->
  Forall (fun c => length c = 8%nat) raws ->
  md !! "yscaling" = Some (VFloat ys) ->
  fst (_parse_data (md, File (header ++ concat raws) p))
  = Return (map (fun c => (ys * double_of_bits (le_uint c))%float) raws)
  /\ length (map (fun c => (ys * double_of_bits (le_uint c))%float) raws) = length raws.
Proof.
  intros Hh Hraws Hys. split; [| apply length_map].
  assert (Hlen : length (header ++ concat raws) = (data_start + 8 * length raws)%nat).
  { rewrite length_app, Hh, (length_concat_doubles raws Hraws). reflexivity. }
  rewrite (_parse_data_eq md _ p ys) by (try exact Hys; lia).
  cbn [fst]. f_equal. unfold n_doubles. rewrite Hlen.
  replace ((data_start + 8 * length raws - data_start) / 8)%nat with (length raws)
    by (rewrite Nat.add_comm, Nat.add_sub, Nat.mul_comm, Nat.div_mul; lia).
  rewrite drop_app_length' by (symmetry; exact Hh).
  rewrite <- (app_nil_r (concat raws)), (le_doubles_concat raws [] Hraws).
  rewrite map_map. apply map_ext. intros c. apply float_mul_comm.
Qed.

Lemma raw_samples_are_scaled_witness :
  fst (_parse_data (yscaling_two, File two_samples_file 0))
  = Return (map (fun c => (2 * double_of_bits (le_uint c))%float)
              [one_le; one_and_a_half_le])
  /\ length (map (fun c => (2 * double_of_bits (le_uint c))%float)
               [one_le; one_and_a_half_le])
     = length [one_le; one_and_a_half_le].
Proof.
  apply (raw_samples_are_scaled yscaling_two (repeat Byte.x00 data_start)
           [one_le; one_and_a_half_le] 2%float 0).
  - apply repeat_length.
  - repeat constructor.
  - reflexivity.
Defined.

Example two_samples_values :
  fst (_parse_data (yscaling_two, File two_samples_file 0)) = Return [2%float; 3%float].
Proof. vm_compute. reflexivity. Qed.

(** ** [CHFile]: the time axis *)







Lemma times_eq (self : CHFile) (start stop : float) :
  metadata self !! "start_time" = Some (VFloat start) ->
  metadata self !! "end_time" = Some (VFloat stop) ->
  times self = (Return (numpy_linspace start stop (length (values self))), self).
Proof.
  intros Hs He. unfold times. rewrite Hs, He. reflexivity.
Qed.





(** ** [findPeaks] *)

Lemma getitem_lt {A} (l : list A) (i : nat) :
  (i < length l)%nat -> exists x, l !! i = Some x /\ getitem l i = Value x.
Proof.
  intros Hi. destruct (lookup_lt_is_Some_2 l i Hi) as [x Hx].
  exists x. unfold getitem. rewrite Hx. split; reflexivity.
Qed.

(** The list of peaks is empty when the body starts and is still empty when
    the body ends without an [IndexError]. *)
Lemma findPeaks_body_no_peak (xdata ydata : list float) (peakwidth : Z) (i : nat)
    (st st' : peak_state) :
  peakpoints st = [] ->
  findPeaks_body xdata ydata peakwidth i st = Value st' ->
  peakpoints st' = [].
Proof.
  destruct st as [pp mi ir lm]. simpl. intros ->.
  unfold findPeaks_body, and_then, getitem. simpl.
  repeat case_match; simpl in *; intros; simplify_eq; reflexivity.
Qed.

Lemma findPeaks_loop_no_peak (xdata ydata : list float) (peakwidth : Z)
    (indices : list nat) :
  forall st st',
    peakpoints st = [] ->
    findPeaks_loop xdata ydata peakwidth indices st = Value st' ->
    peakpoints st' = [].
Proof.
  induction indices as [| i indices IH]; intros st st' Hst; simpl.
  - intros [= <-]. exact Hst.
  - unfold and_then at 1.
    destruct (findPeaks_body xdata ydata peakwidth i st) as [st1 |] eqn:Hb;
      [| discriminate].
    apply IH. exact (findPeaks_body_no_peak _ _ _ _ _ _ Hst Hb).
Qed.

(** X1: [findPeaks] can never report a peak.  The list [peakpoints] starts
    empty and is only ever changed through [peakpoints[0].append], which
    raises [IndexError] on the empty list: every call returns the empty list
    or raises [IndexError]. *)
Theorem findPeaks_never_reports (xdata ydata : list float) (peakwidth : Z) :
  findPeaks xdata ydata peakwidth = Value []
  \/ findPeaks xdata ydata peakwidth = IndexError.
Proof.
  unfold findPeaks, and_then.
  destruct (getitem xdata 0) as [x0 |]; [| right; reflexivity].
  destruct (getitem ydata 0) as [y0 |]; [| right; reflexivity].
  destruct (findPeaks_loop xdata ydata peakwidth (seq 1 (length ydata - 1)) _)
    as [st |] eqn:Hloop; [| right; reflexivity].
  left. f_equal. apply (fun H => findPeaks_loop_no_peak _ _ _ _ _ _ H Hloop). reflexivity.
Qed.

(** The call that finds a peak raises: the maximum 5.0 is followed by a dip
    and a rise, which with [peakwidth = 0] is a peak. *)
Example findPeaks_peak_raises :
  findPeaks [0; 1; 2]%float [5; 1; 2]%float 0 = IndexError.
Proof. vm_compute. reflexivity. Qed.

(** X2: with no point at all, in [xdata] or in [ydata], [findPeaks] raises
    [IndexError] (from [xdata[0]] or [ydata[0]]). *)
Theorem findPeaks_no_points (xdata ydata : list float) (peakwidth : Z) :
  xdata = [] \/ ydata = [] ->
  findPeaks xdata ydata peakwidth = IndexError.
Proof.
  intros [-> | ->]; unfold findPeaks; [reflexivity |].
  destruct (getitem xdata 0); reflexivity.
Qed.

Lemma findPeaks_no_points_witness : findPeaks [1%float] [] 300 = IndexError.
Proof.
  apply (findPeaks_no_points [1%float] [] 300). right. reflexivity.
Defined.

(** Closes the cases of the body in which the peak test holds against the
    bounds on the counters. *)
Ltac peak_test_false :=
  match goal with
  | H : (_ <? _) && (_ <? _) = true |- _ =>
      apply andb_true_iff in H as [?H ?H];
      repeat match goal with
             | H' : (_ <? _) = true |- _ => apply Z.ltb_lt in H'
             end;
      simpl in *; lia
  end.

(** While both counters are below [peakwidth] the body runs without error
    and adds at most one to each. *)
Lemma findPeaks_body_counting (xdata ydata : list float) (peakwidth m : Z) (i : nat)
    (st : peak_state) :
  (1 <= i < length ydata)%nat -> (i < length xdata)%nat ->
  peakpoints st = [] ->
  0 <= m < peakwidth -> max_iters st <= m -> inc_run st <= m ->
  exists st',
    findPeaks_body xdata ydata peakwidth i st = Value st'
    /\ peakpoints st' = [] /\ max_iters st' <= m + 1 /\ inc_run st' <= m + 1.
Proof.
  intros Hi Hx Hpp Hm Hmi Hir.
  destruct (getitem_lt ydata i) as (yi & _ & Hyi); [lia |].
  destruct (getitem_lt ydata (i - 1)) as (yp & _ & Hyp); [lia |].
  destruct (getitem_lt xdata i Hx) as (xi & _ & Hxi).
  destruct st as [pp mi ir lm]. simpl in *. subst pp.
  unfold findPeaks_body. rewrite Hyi, Hxi, Hyp. unfold and_then. simpl.
  repeat case_match; simplify_eq; try peak_test_false;
    (eexists; split; [reflexivity | simpl; repeat split; lia]).
Qed.

Lemma findPeaks_loop_counting (xdata ydata : list float) (peakwidth : Z)
    (indices : list nat) :
  forall (m : Z) (st : peak_state),
    Forall (fun i => (1 <= i < length ydata)%nat /\ (i < length xdata)%nat) indices ->
    peakpoints st = [] ->
    0 <= m -> m + Z.of_nat (length indices) <= peakwidth ->
    max_iters st <= m -> inc_run st <= m ->
    exists st',
      findPeaks_loop xdata ydata peakwidth indices st = Value st'
      /\ peakpoints st' = [].
Proof.
  induction indices as [| i indices IH]; intros m st Hall Hpp Hm Hlen Hmi Hir.
  - exists st. split; [reflexivity | exact Hpp].
  - apply Forall_cons in Hall as [[Hi Hx] Hall]. simpl length in Hlen.
    destruct (findPeaks_body_counting xdata ydata peakwidth m i st Hi Hx Hpp)
      as (st1 & Hb & Hpp1 & Hmi1 & Hir1); [lia | exact Hmi | exact Hir |].
    simpl. rewrite Hb. simpl.
    apply (IH (m + 1) st1 Hall Hpp1); lia.
Qed.

Lemma seq_indices_valid (xdata ydata : list float) :
  (length ydata <= length xdata)%nat ->
  Forall (fun i => (1 <= i < length ydata)%nat /\ (i < length xdata)%nat)
    (seq 1 (length ydata - 1)).
Proof.
  intros Hlen. apply Forall_forall. intros i Hi.
  apply elem_of_seq in Hi. lia.
Qed.

(** X3: a signal of at least one point and at most [peakwidth + 1] points is
    too short for a peak: when [xdata] has a point for every point of
    [ydata], [findPeaks] returns the empty list, without error.  (A signal
    without points raises [IndexError]: X2.) *)
Theorem findPeaks_short_signal (xdata ydata : list float) (peakwidth : Z) :
  (1 <= length ydata <= length xdata)%nat ->
  Z.of_nat (length ydata) <= peakwidth + 1 ->
  findPeaks xdata ydata peakwidth = Value [].
Proof.
  intros Hlen Hshort.
  destruct (getitem_lt xdata 0) as (x0 & _ & Hx0); [lia |].
  destruct (getitem_lt ydata 0) as (y0 & _ & Hy0); [lia |].
  unfold findPeaks. rewrite Hx0, Hy0. simpl.
  destruct (findPeaks_loop_counting xdata ydata peakwidth (seq 1 (length ydata - 1)) 0
              {| peakpoints := []; max_iters := 0; inc_run := 0; local_max := (x0, y0) |})
    as (st' & Hloop & Hpp); simpl; try lia; try reflexivity.
  - apply seq_indices_valid. lia.
  - rewrite length_seq. lia.
  - rewrite Hloop. simpl. rewrite Hpp. reflexivity.
Qed.

Lemma findPeaks_short_signal_witness :
  findPeaks [0; 1; 2]%float [5; 1; 2]%float 300 = Value [].
Proof.
  apply (findPeaks_short_signal [0; 1; 2]%float [5; 1; 2]%float 300).
  - simpl. lia.
  - simpl. lia.
Defined.

(** While the running maximum is negative nothing is appended, so the body
    runs without error and the running maximum stays a point of [ydata]. *)
Lemma findPeaks_body_negative (xdata ydata : list float) (peakwidth : Z) (i : nat)
    (st : peak_state) :
  Forall (fun y => (y <? 0)%float = true) ydata ->
  (1 <= i < length ydata)%nat -> (i < length xdata)%nat ->
  peakpoints st = [] ->
  (snd (local_max st) <? 0)%float = true ->
  exists st',
    findPeaks_body xdata ydata peakwidth i st = Value st'
    /\ peakpoints st' = [] /\ (snd (local_max st') <? 0)%float = true.
Proof.
  intros Hneg Hi Hx Hpp Hlm.
  destruct (getitem_lt ydata i) as (yi & Hyl & Hyi); [lia |].
  destruct (getitem_lt ydata (i - 1)) as (yp & _ & Hyp); [lia |].
  destruct (getitem_lt xdata i Hx) as (xi & _ & Hxi).
  pose proof (proj1 (Forall_lookup _ _) Hneg i yi Hyl) as Hyineg. simpl in Hyineg.
  destruct st as [pp mi ir [lx ly]]. simpl in *. subst pp.
  unfold findPeaks_body. rewrite Hyi, Hxi, Hyp. unfold and_then. simpl.
  repeat case_match; simplify_eq; simpl in *;
    rewrite ?Hlm, ?Hyineg in *; try discriminate;
    (eexists; split; [reflexivity | simpl; split; [reflexivity | assumption]]).
Qed.

Lemma findPeaks_loop_negative (xdata ydata : list float) (peakwidth : Z)
    (indices : list nat) :
  Forall (fun y => (y <? 0)%float = true) ydata ->
  forall st : peak_state,
    Forall (fun i => (1 <= i < length ydata)%nat /\ (i < length xdata)%nat) indices ->
    peakpoints st = [] ->
    (snd (local_max st) <? 0)%float = true ->
    exists st',
      findPeaks_loop xdata ydata peakwidth indices st = Value st'
      /\ peakpoints st' = [].
Proof.
  intros Hneg. induction indices as [| i indices IH]; intros st Hall Hpp Hlm.
  - exists st. split; [reflexivity | exact Hpp].
  - apply Forall_cons in Hall as [[Hi Hx] Hall].
    destruct (findPeaks_body_negative xdata ydata peakwidth i st Hneg Hi Hx Hpp Hlm)
      as (st1 & Hb & Hpp1 & Hlm1).
    simpl. rewrite Hb. simpl. apply (IH st1 Hall Hpp1 Hlm1).
Qed.

(** X4: on a signal of at least one point whose points are all negative,
    with a point of [xdata] for every point of [ydata], [findPeaks] returns
    the empty list, without error and whatever [peakwidth] is: a maximum
    below zero is never appended.  (A signal without points raises
    [IndexError]: X2.) *)
Theorem findPeaks_negative_signal (xdata ydata : list float) (peakwidth : Z) :
  (1 <= length ydata <= length xdata)%nat ->
  Forall (fun y => (y <? 0)%float = true) ydata ->
  findPeaks xdata ydata peakwidth = Value [].
Proof.
  intros Hlen Hneg.
  destruct (getitem_lt xdata 0) as (x0 & _ & Hx0); [lia |].
  destruct (getitem_lt ydata 0) as (y0 & Hyl & Hy0); [lia |].
  pose proof (proj1 (Forall_lookup _ _) Hneg 0%nat y0 Hyl) as Hy0neg. simpl in Hy0neg.
  unfold findPeaks. rewrite Hx0, Hy0. simpl.
  destruct (findPeaks_loop_negative xdata ydata peakwidth (seq 1 (length ydata - 1)) Hneg
              {| peakpoints := []; max_iters := 0; inc_run := 0; local_max := (x0, y0) |})
    as (st' & Hloop & Hpp).
  - apply seq_indices_valid. lia.
  - reflexivity.
  - exact Hy0neg.
  - rewrite Hloop. simpl. rewrite Hpp. reflexivity.
Qed.

Lemma findPeaks_negative_signal_witness :
  findPeaks [0; 1; 2]%float [-5; -7; -6]%float 0 = Value [].
Proof.
  apply (findPeaks_negative_signal [0; 1; 2]%float [-5; -7; -6]%float 0).
  - simpl. lia.
  - repeat constructor.
Defined.

(** ** More on [chConverter] *)

Lemma scale_of_app (hdr rest : list byte) :
  length hdr = 0x1800%nat ->
  scale_of (hdr ++ rest) = scale_of hdr.
Proof.
  intros Hhdr. pose proof scale_before_stream as Hsc. unfold scale_of.
  rewrite drop_app_le by lia. rewrite take_app_le; [reflexivity |].
  rewrite length_drop. lia.
Qed.

(** X5: what follows the terminator is never read.  Two files with the same
    first 0x1800 bytes and the same stream of run records decode to the same
    samples whatever bytes follow the terminator, and the file object is
    left just past the terminator. *)
Theorem chConverter_ignores_trailing_bytes (hdr : list byte) (runs : list RunRecord)
    (rest rest' : list byte) (p p' : nat) :
  length hdr = 0x1800%nat ->
  Forall run_ok runs ->
  fst (chConverter (File (hdr ++ stream_bytes runs ++ rest) p))
  = fst (chConverter (File (hdr ++ stream_bytes runs ++ rest') p'))
  /\ pos (snd (chConverter (File (hdr ++ stream_bytes runs ++ rest) p)))
     = (0x1800 + length (stream_bytes runs))%nat.
Proof.
  intros Hhdr Hok.
  rewrite (chConverter_sound hdr runs rest p Hhdr Hok).
  rewrite (chConverter_sound hdr runs rest' p' Hhdr Hok).
  simpl. rewrite !(scale_of_app hdr) by exact Hhdr. split; reflexivity.
Qed.

Lemma chConverter_ignores_trailing_bytes_witness :
  fst (chConverter (File (trace_file half [] ++ stream_bytes plain_records ++ []) 0))
  = fst (chConverter
           (File (trace_file half [] ++ stream_bytes plain_records ++ [Byte.xff]) 7))
  /\ pos (snd (chConverter
                 (File (trace_file half [] ++ stream_bytes plain_records ++ []) 0)))
     = (0x1800 + length (stream_bytes plain_records))%nat.
Proof.
  apply (chConverter_ignores_trailing_bytes (trace_file half []) plain_records
           [] [Byte.xff] 0 7).
  - vm_compute. reflexivity.
  - exact plain_records_ok.
Defined.

Lemma chConverter_Return_runs (f : file) (data : list float) :
  fst (chConverter f) = Return data ->
  exists runs rest,
    Forall run_ok runs
    /\ drop 0x1800 (content f) = stream_bytes runs ++ rest
    /\ data = samples (scale_of (content f)) runs.
Proof.
  intros H.
  destruct (chConverter_cases f) as [(runs & Hok & Hd & H') | (f' & H' & _)];
    rewrite H' in H; simpl in H; [| discriminate].
  exists runs. eexists. split; [exact Hok |]. split; [exact Hd | congruence].
Qed.

Lemma chConverter_outcomes (f : file) :
  (exists data, fst (chConverter f) = Return data)
  \/ fst (chConverter f) = Raise struct_error.
Proof.
  destruct (chConverter_cases f) as [(runs & _ & _ & H) | (f' & H & _)]; rewrite H.
  - left. eexists. reflexivity.
  - right. reflexivity.
Qed.

(** X6: of the bytes before 0x1800 only the eight bytes of the scale factor
    at 0x127C matter.  Two files that agree on those eight bytes and on
    everything from 0x1800 on give the same outcome, the same samples or the
    same error. *)
Theorem chConverter_reads_scale_and_stream (f g : file) :
  take 8 (drop 0x127C (content f)) = take 8 (drop 0x127C (content g)) ->
  drop 0x1800 (content f) = drop 0x1800 (content g) ->
  fst (chConverter f) = fst (chConverter g).
Proof.
  intros Hscale Hstream.
  assert (Hsc : scale_of (content f) = scale_of (content g)).
  { unfold scale_of. rewrite Hscale. reflexivity. }
  destruct (chConverter_outcomes f) as [[data Hf] | Hf].
  - destruct (chConverter_Return_runs f data Hf) as (runs & rest & Hok & Hd & ->).
    rewrite Hf. rewrite Hstream in Hd.
    rewrite (chConverter_sound_at g runs rest Hok Hd). simpl. rewrite Hsc. reflexivity.
  - destruct (chConverter_outcomes g) as [[data Hg] | Hg]; [| congruence].
    destruct (chConverter_Return_runs g data Hg) as (runs & rest & Hok & Hd & _).
    rewrite <- Hstream in Hd.
    rewrite (chConverter_sound_at f runs rest Hok Hd) in Hf. discriminate Hf.
Qed.

Lemma chConverter_reads_scale_and_stream_witness :
  fst (chConverter (File (trace_file half plain_run) 0))
  = fst (chConverter
           (File (repeat Byte.xff 0x127C ++ half ++ repeat Byte.x01 (0x1800 - 0x127C - 8)
                  ++ plain_run) 0)).
Proof.
  apply (chConverter_reads_scale_and_stream (File (trace_file half plain_run) 0)
           (File (repeat Byte.xff 0x127C ++ half ++ repeat Byte.x01 (0x1800 - 0x127C - 8)
                  ++ plain_run) 0)).
  - vm_compute. reflexivity.
  - vm_compute. reflexivity.
Defined.

(** X7: a file too short to hold the scale factor, the empty file among
    them, makes [chConverter] raise [struct.error]. *)
Theorem chConverter_short_file (f : file) :
  (length (content f) < 0x127C + 8)%nat ->
  fst (chConverter f) = Raise struct_error.
Proof.
  intros Hlen.
  destruct (chConverter_no_scale f) as (f' & H & _); [lia |].
  rewrite H. reflexivity.
Qed.

Lemma chConverter_short_file_witness : fst (chConverter (File [] 0)) = Raise struct_error.
Proof.
  apply (chConverter_short_file (File [] 0)). vm_compute. lia.
Defined.

(** The sample of an entry depends on the samples before it through the
    last of them only. *)
Lemma next_sample_snoc (del_ab : float) (data : list float) (x : float) (e : entry) :
  next_sample del_ab (data ++ [x]) e = next_sample del_ab [x] e.
Proof.
  destruct e as [b1 b2 | b3 b4 b5 b6]; [| reflexivity].
  unfold next_sample. rewrite last_last.
  destruct (data ++ [x]) eqn:E; [destruct data; discriminate | reflexivity].
Qed.

Lemma run_samples_snoc (del_ab : float) (es : list entry) :
  forall (data : list float) (x : float),
    run_samples del_ab (data ++ [x]) es = data ++ run_samples del_ab [x] es.
Proof.
  induction es as [| e es IH]; intros data x.
  - reflexivity.
  - rewrite !run_samples_cons, next_sample_snoc.
    rewrite (IH (data ++ [x])), (IH [x]), <- app_assoc. reflexivity.
Qed.

(** What is decoded after at least one sample is appended to the samples
    before, and depends on the last of them only. *)
Lemma run_samples_prefix (del_ab : float) (es : list entry) (data tail : list float) :
  tail <> [] ->
  run_samples del_ab (data ++ tail) es = data ++ run_samples del_ab tail es.
Proof.
  intros Htail. destruct (exists_last Htail) as (tail' & x & ->).
  rewrite app_assoc, !run_samples_snoc, app_assoc. reflexivity.
Qed.

Lemma run_samples_nonempty (del_ab : float) (es : list entry) (data : list float) :
  data <> [] -> run_samples del_ab data es <> [].
Proof.
  intros Hd H. apply (f_equal length) in H. rewrite run_samples_length in H.
  destruct data; [contradiction | simpl in H; lia].
Qed.

Lemma samples_from_prefix (del_ab : float) (runs : list RunRecord) :
  forall data tail : list float,
    tail <> [] ->
    samples_from del_ab (data ++ tail) runs = data ++ samples_from del_ab tail runs.
Proof.
  induction runs as [| r runs IH]; intros data tail Htail.
  - reflexivity.
  - rewrite !samples_from_cons, run_samples_prefix by exact Htail.
    apply IH. apply run_samples_nonempty. exact Htail.
Qed.

(** A run that opens with an escaped entry starts the samples afresh. *)
Lemma samples_from_escaped (del_ab : float) (r : RunRecord) (runs : list RunRecord)
    (b3 b4 b5 b6 : byte) (es : list entry) (data : list float) :
  deltas r = Escaped b3 b4 b5 b6 :: es ->
  samples_from del_ab data (r :: runs) = data ++ samples_from del_ab [] (r :: runs).
Proof.
  intros Hr. rewrite !samples_from_cons, Hr, !run_samples_cons.
  change (next_sample del_ab data (Escaped b3 b4 b5 b6))
    with (next_sample del_ab [] (Escaped b3 b4 b5 b6)).
  rewrite run_samples_snoc. rewrite samples_from_prefix.
  - rewrite app_nil_l. reflexivity.
  - apply run_samples_nonempty. discriminate.
Qed.

(** X8: an escaped entry restarts the reconstruction.  When a run record
    opens with an escaped entry, the samples of a stream up to and from that
    record are the samples of the records before it followed by the samples
    the records from it on decode to on their own: no earlier byte of the
    stream influences the samples from the escape on. *)
Theorem chConverter_escape_restarts (hdr : list byte) (runs1 runs2 : list RunRecord)
    (r : RunRecord) (b3 b4 b5 b6 : byte) (es : list entry) (rest : list byte) (p : nat) :
  length hdr = 0x1800%nat ->
  Forall run_ok runs1 -> run_ok r -> Forall run_ok runs2 ->
  deltas r = Escaped b3 b4 b5 b6 :: es ->
  exists before after,
    fst (chConverter (File (hdr ++ stream_bytes runs1 ++ rest) p)) = Return before
    /\ fst (chConverter (File (hdr ++ stream_bytes (r :: runs2) ++ rest) p))
       = Return after
    /\ fst (chConverter (File (hdr ++ stream_bytes (runs1 ++ r :: runs2) ++ rest) p))
       = Return (before ++ after).
Proof.
  intros Hhdr Hok1 Hr Hok2 Hesc.
  assert (Hok : Forall run_ok (r :: runs2)) by (constructor; assumption).
  assert (Hall : Forall run_ok (runs1 ++ r :: runs2)) by (apply Forall_app; split; assumption).
  exists (samples (scale_of hdr) runs1), (samples (scale_of hdr) (r :: runs2)).
  rewrite (chConverter_sound hdr runs1 rest p Hhdr Hok1).
  rewrite (chConverter_sound hdr (r :: runs2) rest p Hhdr Hok).
  rewrite (chConverter_sound hdr (runs1 ++ r :: runs2) rest p Hhdr Hall).
  simpl. rewrite !(scale_of_app hdr) by exact Hhdr.
  split; [reflexivity |]. split; [reflexivity |]. f_equal.
  unfold samples. rewrite samples_from_app.
  apply (samples_from_escaped _ r runs2 b3 b4 b5 b6 es). exact Hesc.
Qed.

Lemma escaped_record_ok : run_ok escaped_record.
Proof.
  split; [reflexivity |]. split.
  - simpl. intros [H _]. discriminate H.
  - repeat (apply Forall_cons; split); [exact I | | exact I | constructor].
    simpl. vm_compute. discriminate.
Qed.

Lemma chConverter_escape_restarts_witness :
  exists before after,
    fst (chConverter
           (File (trace_file tenth [] ++ stream_bytes plain_records ++ []) 0))
    = Return before
    /\ fst (chConverter
              (File (trace_file tenth [] ++ stream_bytes [escaped_record] ++ []) 0))
       = Return after
    /\ fst (chConverter
              (File (trace_file tenth []
                     ++ stream_bytes (plain_records ++ [escaped_record]) ++ []) 0))
       = Return (before ++ after).
Proof.
  apply (chConverter_escape_restarts (trace_file tenth []) plain_records [] escaped_record
           Byte.x00 Byte.x00 Byte.x03 Byte.xe8
           [Direct Byte.x00 Byte.x0a; Escaped Byte.xff Byte.xff Byte.xff Byte.xce] [] 0).
  - vm_compute. reflexivity.
  - exact plain_records_ok.
  - exact escaped_record_ok.
  - constructor.
  - reflexivity.
Defined.

Lemma run_samples_app (del_ab : float) (es1 es2 : list entry) (data : list float) :
  run_samples del_ab data (es1 ++ es2)
  = run_samples del_ab (run_samples del_ab data es1) es2.
Proof. unfold run_samples. apply fold_left_app. Qed.

(** The samples are those of the entries of all the records in a row. *)
Lemma samples_from_flat (del_ab : float) (runs : list RunRecord) :
  forall data,
    samples_from del_ab data runs
    = run_samples del_ab data (concat (map deltas runs)).
Proof.
  induction runs as [| r runs IH]; intros data; [reflexivity |].
  rewrite samples_from_cons, IH. simpl. rewrite run_samples_app. reflexivity.
Qed.

(** X9: how the entries are grouped into runs does not matter.  Two streams
    that reach the terminator and whose run records hold the same entries in
    the same order, in runs of whatever lengths, decode under the same scale
    factor to the same samples. *)
Theorem chConverter_run_grouping (f g : file) (runs runs' : list RunRecord)
    (rest rest' : list byte) :
  Forall run_ok runs -> Forall run_ok runs' ->
  concat (map deltas runs) = concat (map deltas runs') ->
  scale_of (content f) = scale_of (content g) ->
  drop 0x1800 (content f) = stream_bytes runs ++ rest ->
  drop 0x1800 (content g) = stream_bytes runs' ++ rest' ->
  fst (chConverter f) = fst (chConverter g).
Proof.
  intros Hok Hok' Hflat Hscale Hf Hg.
  rewrite (chConverter_sound_at f runs rest Hok Hf).
  rewrite (chConverter_sound_at g runs' rest' Hok' Hg).
  simpl. unfold samples. rewrite !samples_from_flat, Hflat, Hscale. reflexivity.
Qed.

Lemma plain_records_split_ok : Forall run_ok plain_records_split.
Proof.
  repeat (apply Forall_cons; split); [| | constructor].
  - split; [reflexivity |]. split; [simpl; intros [H _]; discriminate H |].
    repeat (apply Forall_cons; split); [| constructor]. simpl. vm_compute. discriminate.
  - split; [reflexivity |]. split; [simpl; intros [H _]; discriminate H |].
    repeat (apply Forall_cons; split); [| | constructor];
      simpl; vm_compute; discriminate.
Qed.

Lemma chConverter_run_grouping_witness :
  fst (chConverter (File (trace_file half (stream_bytes plain_records)) 0))
  = fst (chConverter (File (trace_file half (stream_bytes plain_records_split)) 0)).
Proof.
  apply (chConverter_run_grouping
           (File (trace_file half (stream_bytes plain_records)) 0)
           (File (trace_file half (stream_bytes plain_records_split)) 0)
           plain_records plain_records_split [] []).
  - exact plain_records_ok.
  - exact plain_records_split_ok.
  - reflexivity.
  - vm_compute. reflexivity.
  - vm_compute. reflexivity.
  - vm_compute. reflexivity.
Defined.

Lemma entry_bytes_length (e : entry) : (2 <= length (entry_bytes e))%nat.
Proof. destruct e; simpl; lia. Qed.

Lemma entries_bytes_length (es : list entry) :
  (2 * length es <= length (entries_bytes es))%nat.
Proof.
  induction es as [| e es IH]; [simpl; lia |].
  change (entries_bytes (e :: es)) with (entry_bytes e ++ entries_bytes es).
  rewrite length_app. pose proof (entry_bytes_length e). simpl length at 1. lia.
Qed.

Lemma stream_bytes_samples (runs : list RunRecord) :
  Forall run_ok runs ->
  (2 * total_runLength runs + 2 * length runs + 2 <= length (stream_bytes runs))%nat.
Proof.
  induction 1 as [| r runs (Hlen & _) _ IH].
  - simpl. lia.
  - rewrite stream_bytes_cons, !length_app.
    pose proof (entries_bytes_length (deltas r)) as He. rewrite Hlen in He.
    unfold total_runLength in *. simpl. lia.
Qed.

(** X10: every sample costs at least two bytes of the stream, every run two
    bytes more, and the terminator two: when [chConverter] returns [n]
    samples the file has at least 0x1800 + 2 * n + 2 bytes. *)
Theorem chConverter_sample_bound (f : file) (data : list float) :
  fst (chConverter f) = Return data ->
  (0x1800 + 2 * length data + 2 <= length (content f))%nat.
Proof.
  intros H.
  destruct (chConverter_Return_runs f data H) as (runs & rest & Hok & Hd & ->).
  pose proof (stream_bytes_samples runs Hok) as Hb.
  apply (f_equal length) in Hd. rewrite length_drop, length_app in Hd.
  unfold samples. rewrite samples_from_length by exact Hok. simpl length. lia.
Qed.

Lemma chConverter_sample_bound_witness :
  (0x1800 + 2 * length [5%float; 2.5%float; 3.5%float] + 2
   <= length (content (File (trace_file half plain_run) 0)))%nat.
Proof.
  apply (chConverter_sample_bound (File (trace_file half plain_run) 0)
           [5%float; 2.5%float; 3.5%float]).
  vm_compute. reflexivity.
Defined.


(** ** [CHFile]: the header and the object *)

Lemma bind_Return_inv {St A B} (m : Py St A) (k : A -> Py St B) (s s' : St) (b : B) :
  bind m k s = (Return b, s') ->
  exists a s1, m s = (Return a, s1) /\ k a s1 = (Return b, s').
Proof.
  unfold bind. destruct (m s) as [[a | e |] s1]; intros H; try discriminate H.
  exists a, s1. split; [reflexivity | exact H].
Qed.

Lemma on_file_inv {A} (m : Py file A) (md md' : gmap string value) (f f' : file)
    (r : outcome A) :
  on_file m (md, f) = (r, (md', f')) -> md' = md /\ m f = (r, f').
Proof.
  unfold on_file. simpl. destruct (m f) as [r0 f0]. intros H.
  injection H as -> -> ->. split; reflexivity.
Qed.

Lemma unpack_Return {St} (fmt : format) (bs : list byte) (s s' : St) (x : item) :
  unpack fmt bs s = (Return x, s') ->
  length bs = calcsize fmt
  /\ s' = s
  /\ x = match fmt with
         | UINT8 | UINT16 => IInt (be_uint bs)
         | ENDIAN_f => IFloat (single_of_bits (be_uint bs))
         | ENDIAN_d => IFloat (double_of_bits (be_uint bs))
         | STRING _ => IBytes bs
         end.
Proof.
  unfold unpack, unpack_sized.
  destruct (Nat.eqb (length bs) (calcsize fmt)) eqn:E; [| discriminate].
  apply Nat.eqb_eq in E. unfold ret. intros H. injection H as <- <-.
  split; [exact E |]. split; reflexivity.
Qed.

Lemma set_item_inv (key : string) (v : value) (md md' : gmap string value)
    (f f' : file) (r : outcome unit) :
  set_item key v (md, f) = (r, (md', f')) ->
  r = Return tt /\ md' = <[key := v]> md /\ f' = f.
Proof.
  unfold set_item. cbn [fst snd]. intros H. injection H as <- <- <-.
  split; [reflexivity |]. split; reflexivity.
Qed.

Lemma field_names_NoDup : NoDup (map field_name fields).
Proof. apply (bool_decide_unpack _). vm_compute. reflexivity. Qed.

Lemma version_key_fresh : "magic_number_version" ∉ map field_name fields.
Proof. apply (bool_decide_unpack _). vm_compute. reflexivity. Qed.

Lemma datetime_key_fresh : "datetime" ∉ map field_name fields.
Proof. apply (bool_decide_unpack _). vm_compute. reflexivity. Qed.

(** [_parse_data] moves the position of the file object and leaves its
    content alone. *)
Lemma _parse_data_content (md : gmap string value) (f : file) :
  content (snd (snd (_parse_data (md, f)))) = content f.
Proof.
  unfold _parse_data, bind, on_file, seek_end, tell, seek, numpy_fromfile, get_item,
    as_float, ret, raise.
  cbn [fst snd content pos].
  destruct (_ <? 0); [destruct (_ <? 0) |];
    cbn [fst snd content pos]; try reflexivity;
    destruct (md !! "yscaling") as [[] |]; reflexivity.
Qed.

Section Header.

Variable int : list byte -> option Z.
Variable parse_utf16_string : Py file string.
Variable strptime : string -> string -> option (list Z).

(** A field that is parsed is stored under its name; what is stored is the
    value the file holds at the field's offset. *)
Lemma parse_field_Return (name : string) (offset : nat) (type_ : field_type)
    (md md' : gmap string value) (f f' : file) :
  parse_field parse_utf16_string (name, offset, type_) (md, f) = (Return tt, (md', f')) ->
  exists v,
    md' = <[name := v]> md
    /\ (keeps_content parse_utf16_string ->
        content f' = content f
        /\ field_value parse_utf16_string (content f) offset type_ = Return v).
Proof.
  unfold parse_field. intros H.
  apply bind_Return_inv in H as (u & [md1 f1] & H1 & H).
  apply on_file_inv in H1 as [-> H1]. rewrite seek_eq in H1. injection H1 as H1. subst f1.
  destruct type_ as [| | fmt].
  - apply bind_Return_inv in H as (bs & [md2 f2] & H2 & H).
    apply on_file_inv in H2 as [-> H2]. rewrite read_eq in H2. injection H2 as Hbs Hf2. subst bs f2.
    apply bind_Return_inv in H as (itm & [md3 f3] & H3 & H).
    apply unpack_Return in H3 as (Hlen & Hs & ->). injection Hs as Hmd Hf3. subst md3 f3.
    cbv beta iota in H. apply set_item_inv in H as (_ & -> & ->).
    eexists. split; [reflexivity |]. intros _. split; [reflexivity |].
    unfold field_value. unfold ahead in Hlen. cbn [content pos] in Hlen.
    apply Nat.eqb_eq in Hlen. cbn [calcsize] in Hlen. rewrite Hlen. reflexivity.
  - apply bind_Return_inv in H as (str & [md2 f2] & H2 & H).
    apply on_file_inv in H2 as [-> H2].
    apply set_item_inv in H as (_ & -> & ->).
    eexists. split; [reflexivity |]. intros Hkeep.
    specialize (Hkeep (File (content f) offset)). rewrite H2 in Hkeep.
    split; [exact Hkeep |]. unfold field_value. rewrite H2. reflexivity.
  - apply bind_Return_inv in H as (bs & [md2 f2] & H2 & H).
    apply on_file_inv in H2 as [-> H2]. rewrite read_eq in H2. injection H2 as Hbs Hf2. subst bs f2.
    apply bind_Return_inv in H as (itm & [md3 f3] & H3 & H).
    apply unpack_Return in H3 as (Hlen & Hs & ->). injection Hs as Hmd Hf3. subst md3 f3.
    unfold ahead in Hlen. cbn [content pos] in Hlen. apply Nat.eqb_eq in Hlen.
    unfold field_value. rewrite Hlen.
    destruct fmt; cbv beta iota in H; try discriminate H;
      apply set_item_inv in H as (_ & -> & ->);
      (eexists; split; [reflexivity |]; intros _; split; reflexivity).
Qed.

(** The loop over the field table, when it ends: the keys it leaves alone,
    the keys it adds, and, for a reader that leaves the content alone, what
    it stores under each name. *)
Lemma parse_fields_Return (fs : list (string * nat * field_type))
    (md md' : gmap string value) (f f' : file) :
  parse_fields parse_utf16_string fs (md, f) = (Return tt, (md', f')) ->
  (forall key, key ∉ map field_name fs -> md' !! key = md !! key)
  /\ dom md' =@{gset string} list_to_set (map field_name fs) ∪ dom md
  /\ (keeps_content parse_utf16_string ->
      content f' = content f
      /\ (NoDup (map field_name fs) ->
          forall name offset type_,
            (name, offset, type_) ∈ fs ->
            exists v,
              md' !! name = Some v
              /\ field_value parse_utf16_string (content f) offset type_ = Return v)).
Proof.
  revert md f. induction fs as [| [[name offset] type_] fs IH]; intros md f H.
  - injection H as <- <-. split; [reflexivity |].
    split; [cbn [map list_to_set]; rewrite (left_id_L ∅ (∪)); reflexivity |].
    intros _. split; [reflexivity |]. intros _ name offset type_ Hin.
    apply elem_of_nil in Hin. destruct Hin.
  - cbn [parse_fields] in H.
    apply bind_Return_inv in H as ([] & [md1 f1] & H1 & H).
    apply parse_field_Return in H1 as (v & -> & Hv).
    apply IH in H as (Hout & Hdom & Hin). clear IH.
    cbn [map]. change (field_name (name, offset, type_)) with name.
    split; [| split].
    + intros key Hkey. apply not_elem_of_cons in Hkey as [Hne Hkey].
      rewrite (Hout key Hkey). apply lookup_insert_ne. congruence.
    + rewrite Hdom, dom_insert_L. cbn [list_to_set].
      rewrite (assoc_L (∪)), (comm_L (∪) (list_to_set _) {[name]}). reflexivity.
    + intros Hkeep. destruct (Hv Hkeep) as [Hc1 Hv1].
      destruct (Hin Hkeep) as [Hc2 Hrest]. split; [congruence |].
      intros Hnodup name' offset' type' Hel.
      apply NoDup_cons in Hnodup as [Hfresh Hnodup].
      apply elem_of_cons in Hel as [Heq | Hel].
      * injection Heq as -> -> ->. exists v. split; [| exact Hv1].
        rewrite (Hout name Hfresh). apply lookup_insert_eq.
      * rewrite <- Hc1. apply (Hrest Hnodup). exact Hel.
Qed.

(** The header, when it is accepted: the version was 179, the field table
    was read, and the date it stored was accepted by [strptime]. *)
Lemma _parse_header_Return (md md' : gmap string value) (bytes : list byte) (f' : file) :
  _parse_header int parse_utf16_string strptime (md, File bytes 0)
  = (Return tt, (md', f')) ->
  exists (p : nat) (md1 : gmap string value) (d : string) (t : list Z),
    parse_fields parse_utf16_string fields
      (<["magic_number_version" := VInt 179]> md, File bytes p)
    = (Return tt, (md1, f'))
    /\ md1 !! "date" = Some (VStr d)
    /\ strptime d date_format = Some t
    /\ md' = <["datetime" := VTime t]> md1.
Proof.
  unfold _parse_header. intros H.
  apply bind_Return_inv in H as (bs & [md0 f0] & H1 & H).
  apply on_file_inv in H1 as [-> H1]. rewrite read_eq in H1.
  injection H1 as Hbs Hf0. subst bs f0.
  apply bind_Return_inv in H as (itm & [md1 f1] & H2 & H).
  apply unpack_Return in H2 as (_ & Hs & ->). injection Hs as Hmd Hf. subst md1 f1.
  cbv beta iota in H.
  apply bind_Return_inv in H as (bs & [md0 f0] & H1 & H).
  apply on_file_inv in H1 as [-> H1]. rewrite read_eq in H1.
  injection H1 as Hbs Hf0. subst bs f0.
  apply bind_Return_inv in H as (itm & [md1 f1] & H2 & H).
  apply unpack_Return in H2 as (_ & Hs & ->). injection Hs as Hmd Hf. subst md1 f1.
  cbv beta iota in H.
  destruct (int _) as [version |]; [| discriminate H].
  destruct (decide (version ∉ supported_versions)) as [| Hv]; [discriminate H |].
  assert (version = 179) as ->.
  { destruct (decide (version = 179)) as [-> | Hne]; [reflexivity |].
    exfalso. apply Hv. unfold supported_versions. rewrite elem_of_singleton. exact Hne. }
  apply bind_Return_inv in H as ([] & [md0 f0] & H1 & H).
  apply set_item_inv in H1 as (_ & -> & ->).
  apply bind_Return_inv in H as ([] & [md1 f1] & H1 & H).
  apply bind_Return_inv in H as (date & [md2 f2] & H2 & H).
  unfold get_item in H2. cbn [fst snd] in H2.
  destruct (md1 !! "date") as [v |] eqn:Hdate; [| discriminate H2].
  injection H2 as Hv2 Hmd2 Hf2. subst v md2 f2.
  destruct date as [| | d |]; try discriminate H.
  destruct (strptime d "%d-%b-%y, %H:%M:%S") as [t |] eqn:Ht; [| discriminate H].
  apply set_item_inv in H as (_ & -> & ->).
  eexists _, md1, d, t. split; [exact H1 |]. split; [exact Hdate |].
  split; [exact Ht | reflexivity].
Qed.

(** [_parse_data] reads [self.metadata] and does not write it. *)
Lemma _parse_data_Return (md md' : gmap string value) (f f' : file) (vals : list float) :
  _parse_data (md, f) = (Return vals, (md', f')) -> md' = md.
Proof.
  unfold _parse_data. intros H.
  apply bind_Return_inv in H as ([] & [md0 f0] & H1 & H).
  apply on_file_inv in H1 as [-> _].
  apply bind_Return_inv in H as (size & [md0 f1] & H1 & H).
  apply on_file_inv in H1 as [-> _].
  apply bind_Return_inv in H as ([] & [md0 f2] & H1 & H).
  apply on_file_inv in H1 as [-> _].
  apply bind_Return_inv in H as (raw & [md0 f3] & H1 & H).
  apply on_file_inv in H1 as [-> _].
  apply bind_Return_inv in H as (ys & [md0 f4] & H1 & H).
  unfold get_item in H1. cbn [fst snd] in H1.
  destruct (md !! "yscaling") as [v |]; [| discriminate H1].
  injection H1 as Hv Hmd Hf. subst v md0 f4.
  apply bind_Return_inv in H as (y & [md0 f4] & H1 & H).
  destruct ys; try discriminate H1; injection H1 as Hy Hmd Hf; subst y md0 f4;
    injection H as _ Hmd _; symmetry; exact Hmd.
Qed.

(** The object, when it is built: the header was accepted and the data were
    read from the file object the header left behind. *)
Lemma __init___Return (bytes : list byte) (self : CHFile) :
  __init__ int parse_utf16_string strptime bytes = Return self ->
  exists (md : gmap string value) (f f' : file),
    _parse_header int parse_utf16_string strptime (∅, File bytes 0)
    = (Return tt, (md, f))
    /\ _parse_data (md, f) = (Return (values self), (md, f'))
    /\ metadata self = md.
Proof.
  unfold __init__. intros H.
  destruct (bind _ _ _) as [[vals | e |] [md' f']] eqn:E; try discriminate H.
  injection H as <-. cbn [values metadata].
  apply bind_Return_inv in E as ([] & [md f] & H1 & H2).
  pose proof (_parse_data_Return _ _ _ _ _ H2) as ->.
  exists md, f, f'. split; [exact H1 |]. split; [exact H2 | reflexivity].
Qed.

(** What an accepted file stores for an entry of the field table, for a
    reader that leaves the content alone; the file object the header leaves
    behind still has the content of the file. *)
Lemma built_field (bytes : list byte) (self : CHFile) :
  keeps_content parse_utf16_string ->
  __init__ int parse_utf16_string strptime bytes = Return self ->
  (forall name offset type_,
     (name, offset, type_) ∈ fields ->
     exists v,
       metadata self !! name = Some v
       /\ field_value parse_utf16_string bytes offset type_ = Return v)
  /\ exists p p',
       _parse_data (metadata self, File bytes p)
       = (Return (values self), (metadata self, File bytes p')).
Proof.
  intros Hkeep H. apply __init___Return in H as (md & f & f' & Hh & Hd & ->).
  apply _parse_header_Return in Hh as (p & md1 & d & t & Hf & _ & _ & ->).
  apply parse_fields_Return in Hf as (_ & _ & Hval).
  destruct (Hval Hkeep) as [Hc Hval']. cbn [content] in Hc. split.
  - intros name offset type_ Hin.
    destruct (Hval' field_names_NoDup name offset type_ Hin) as (v & Hv & Hfv).
    exists v. split; [| exact Hfv].
    rewrite lookup_insert_ne; [exact Hv |].
    intros <-. apply datetime_key_fresh.
    exact (list_elem_of_fmap_2 field_name _ _ Hin).
  - destruct f as [c q]. cbn [content] in Hc. subst c.
    destruct f' as [c' q'].
    pose proof (_parse_data_content (<["datetime" := VTime t]> md1) (File bytes q))
      as Hc'.
    rewrite Hd in Hc'. cbn [snd content] in Hc'. subst c'.
    exists q, q'. exact Hd.
Qed.

End Header.

Lemma example_reader_keeps_content : keeps_content example_reader.
Proof. intros g. reflexivity. Qed.

Lemma built_example :
  exists self,
    __init__ decimal_int example_reader example_strptime version_179_file = Return self.
Proof. eexists. vm_compute. reflexivity. Qed.

Lemma outcome_Return_inj {A} (a b : A) : Return a = Return b -> a = b.
Proof. intros H. injection H as H. exact H. Qed.

Lemma set_item_eq (key : string) (v : value) (md : gmap string value) (f : file) :
  set_item key v (md, f) = (Return tt, (<[key := v]> md, f)).
Proof. reflexivity. Qed.

(** A field of a [struct] format that the file is too short for. *)
Lemma parse_field_short (parse_utf16_string : Py file string)
    (name : string) (offset : nat) (fmt : format) (md : gmap string value) (f : file) :
  length (take (calcsize fmt) (drop offset (content f))) <> calcsize fmt ->
  exists p,
    parse_field parse_utf16_string (name, offset, struct_format fmt) (md, f)
    = (Raise struct_error, (md, File (content f) p)).
Proof.
  intros Hlen. eexists. unfold parse_field.
  py_step (on_file_eq _ md _ _ _ (seek_eq offset f)).
  py_step (on_file_eq _ md _ _ _ (read_eq (calcsize fmt) (File (content f) offset))).
  unfold unpack.
  py_fail (unpack_sized_short (St := state) (calcsize fmt)
             (fun bs =>
                match fmt with
                | UINT8 | UINT16 => IInt (be_uint bs)
                | ENDIAN_f => IFloat (single_of_bits (be_uint bs))
                | ENDIAN_d => IFloat (double_of_bits (be_uint bs))
                | STRING _ => IBytes bs
                end)
             (take (calcsize fmt) (ahead (File (content f) offset)))
             (md, advance (length (take (calcsize fmt) (ahead (File (content f) offset))))
                    (File (content f) offset))
             Hlen).
  reflexivity.
Qed.

(** X11: an object that was built has the version, the date and time and
    every name of the field table as the keys of [metadata], and no other,
    whatever the file holds and whatever the reader of the strings does; the
    version it records is 179. *)
Theorem CHFile_metadata_keys
    (int : list byte -> option Z) (parse_utf16_string : Py file string)
    (strptime : string -> string -> option (list Z))
    (bytes : list byte) (self : CHFile) :
  __init__ int parse_utf16_string strptime bytes = Return self ->
  dom (metadata self) =@{gset string} list_to_set metadata_keys
  /\ metadata self !! "magic_number_version" = Some (VInt 179).
Proof.
  intros H. apply __init___Return in H as (md & f & f' & Hh & _ & ->).
  apply _parse_header_Return in Hh as (p & md1 & d & t & Hf & _ & _ & ->).
  apply parse_fields_Return in Hf as (Hout & Hdom & _). split.
  - rewrite dom_insert_L, Hdom, dom_insert_L, dom_empty_L, (right_id_L ∅ (∪)).
    unfold metadata_keys. cbn [list_to_set].
    rewrite (comm_L (∪) (list_to_set _) {["magic_number_version"]}).
    rewrite !(assoc_L (∪)).
    rewrite (comm_L (∪) {["datetime"]} {["magic_number_version"]}). reflexivity.
  - rewrite lookup_insert_ne by discriminate.
    rewrite (Hout _ version_key_fresh). apply lookup_insert_eq.
Qed.

Lemma CHFile_metadata_keys_witness :
  exists self,
    __init__ decimal_int example_reader example_strptime version_179_file = Return self
    /\ dom (metadata self) =@{gset string} list_to_set metadata_keys
    /\ metadata self !! "magic_number_version" = Some (VInt 179).
Proof.
  destruct built_example as [self Hself]. exists self. split; [exact Hself |].
  exact (CHFile_metadata_keys decimal_int example_reader example_strptime
           version_179_file self Hself).
Defined.

(** X12: the date and time of an object that was built is what [strptime]
    makes, with the format of the class, of the string stored under "date". *)
Theorem CHFile_datetime_of_date
    (int : list byte -> option Z) (parse_utf16_string : Py file string)
    (strptime : string -> string -> option (list Z))
    (bytes : list byte) (self : CHFile) :
  __init__ int parse_utf16_string strptime bytes = Return self ->
  exists (d : string) (t : list Z),
    metadata self !! "date" = Some (VStr d)
    /\ strptime d date_format = Some t
    /\ metadata self !! "datetime" = Some (VTime t).
Proof.
  intros H. apply __init___Return in H as (md & f & f' & Hh & _ & ->).
  apply _parse_header_Return in Hh as (p & md1 & d & t & _ & Hd & Ht & ->).
  exists d, t. split; [| split].
  - rewrite lookup_insert_ne by discriminate. exact Hd.
  - exact Ht.
  - apply lookup_insert_eq.
Qed.

Lemma CHFile_datetime_of_date_witness :
  exists (self : CHFile) (d : string) (t : list Z),
    __init__ decimal_int example_reader example_strptime version_179_file = Return self
    /\ metadata self !! "date" = Some (VStr d)
    /\ example_strptime d date_format = Some t
    /\ metadata self !! "datetime" = Some (VTime t).
Proof.
  destruct built_example as [self Hself].
  destruct (CHFile_datetime_of_date decimal_int example_reader example_strptime
              version_179_file self Hself) as (d & t & H1 & H2 & H3).
  exists self, d, t. split; [exact Hself |]. split; [exact H1 |].
  split; [exact H2 | exact H3].
Defined.

(** X13: for a reader that leaves the content of the file alone, every entry
    of the field table is stored under its name with the value the file
    holds at the entry's offset: no field is overwritten by a later one or
    by the date and time. *)
Theorem CHFile_fields_at_offsets
    (int : list byte -> option Z) (parse_utf16_string : Py file string)
    (strptime : string -> string -> option (list Z))
    (bytes : list byte) (self : CHFile)
    (name : string) (offset : nat) (type_ : field_type) :
  keeps_content parse_utf16_string ->
  __init__ int parse_utf16_string strptime bytes = Return self ->
  (name, offset, type_) ∈ fields ->
  exists v,
    metadata self !! name = Some v
    /\ field_value parse_utf16_string bytes offset type_ = Return v.
Proof.
  intros Hkeep H Hin.
  destruct (built_field int parse_utf16_string strptime bytes self Hkeep H) as [Hf _].
  exact (Hf name offset type_ Hin).
Qed.

Lemma CHFile_fields_at_offsets_witness :
  exists (self : CHFile) (v : value),
    metadata self !! "yscaling" = Some v
    /\ field_value example_reader version_179_file 4732 (struct_format ENDIAN_d)
       = Return v.
Proof.
  destruct built_example as [self Hself]. exists self.
  apply (CHFile_fields_at_offsets decimal_int example_reader example_strptime
           version_179_file self "yscaling" 4732 (struct_format ENDIAN_d)
           example_reader_keeps_content Hself).
  unfold fields. repeat (first [apply list_elem_of_here | apply list_elem_of_further]).
Defined.

(** X14: the samples of an object that was built are the little-endian
    doubles from offset 6144, as many as fit in the file, each multiplied by
    the big-endian double at offset 4732, which is what the header stored
    under "yscaling". *)
Theorem CHFile_values_of_bytes
    (int : list byte -> option Z) (parse_utf16_string : Py file string)
    (strptime : string -> string -> option (list Z))
    (bytes : list byte) (self : CHFile) :
  keeps_content parse_utf16_string ->
  (data_start <= length bytes)%nat ->
  __init__ int parse_utf16_string strptime bytes = Return self ->
  metadata self !! "yscaling"
  = Some (VFloat (double_of_bits (be_uint (take 8 (drop 4732 bytes)))))
  /\ values self
     = map (fun v => (v * double_of_bits (be_uint (take 8 (drop 4732 bytes))))%float)
         (le_doubles (n_doubles (length bytes)) (drop data_start bytes)).
Proof.
  intros Hkeep Hlen H.
  destruct (built_field int parse_utf16_string strptime bytes self Hkeep H)
    as [Hf (p & p' & Hd)].
  destruct (Hf "yscaling" 4732%nat (struct_format ENDIAN_d)) as (v & Hv & Hfv).
  { unfold fields. repeat (first [apply list_elem_of_here | apply list_elem_of_further]). }
  unfold field_value in Hfv. cbn [calcsize] in Hfv.
  destruct (Nat.eqb _ 8); [| discriminate Hfv].
  apply outcome_Return_inj in Hfv. subst v. split; [exact Hv |].
  rewrite (_parse_data_eq _ bytes p _ Hlen Hv) in Hd.
  apply (f_equal fst) in Hd. cbn [fst] in Hd.
  apply outcome_Return_inj in Hd. symmetry. exact Hd.
Qed.

Lemma CHFile_values_of_bytes_witness :
  exists self,
    __init__ decimal_int example_reader example_strptime version_179_file = Return self
    /\ metadata self !! "yscaling"
       = Some (VFloat (double_of_bits (be_uint (take 8 (drop 4732 version_179_file)))))
    /\ values self
       = map (fun v =>
                (v * double_of_bits (be_uint (take 8 (drop 4732 version_179_file))))%float)
           (le_doubles (n_doubles (length version_179_file))
              (drop data_start version_179_file)).
Proof.
  destruct built_example as [self Hself]. exists self. split; [exact Hself |].
  apply (CHFile_values_of_bytes decimal_int example_reader example_strptime
           version_179_file self example_reader_keeps_content); [| exact Hself].
  apply Nat.leb_le. vm_compute. reflexivity.
Defined.

(** X15: the time axis of an object that was built never fails: it is
    [numpy.linspace] between the big-endian singles at offsets 282 and 286,
    each divided by 60000, with one point for each sample. *)
Theorem CHFile_times_of_bytes
    (int : list byte -> option Z) (parse_utf16_string : Py file string)
    (strptime : string -> string -> option (list Z))
    (bytes : list byte) (self : CHFile) :
  keeps_content parse_utf16_string ->
  __init__ int parse_utf16_string strptime bytes = Return self ->
  times self
  = (Return
       (numpy_linspace
          (single_of_bits (be_uint (take 4 (drop 282 bytes))) / float_of_Z 60000)
          (single_of_bits (be_uint (take 4 (drop 286 bytes))) / float_of_Z 60000)
          (length (values self))),
     self).
Proof.
  intros Hkeep H.
  destruct (built_field int parse_utf16_string strptime bytes self Hkeep H) as [Hf _].
  destruct (Hf "start_time" 282%nat x_time) as (v1 & Hv1 & Hfv1).
  { unfold fields. repeat (first [apply list_elem_of_here | apply list_elem_of_further]). }
  destruct (Hf "end_time" 286%nat x_time) as (v2 & Hv2 & Hfv2).
  { unfold fields. repeat (first [apply list_elem_of_here | apply list_elem_of_further]). }
  unfold field_value in Hfv1, Hfv2.
  destruct (Nat.eqb (length (take 4 (drop 282 bytes))) 4); [| discriminate Hfv1].
  destruct (Nat.eqb (length (take 4 (drop 286 bytes))) 4); [| discriminate Hfv2].
  apply outcome_Return_inj in Hfv1, Hfv2. subst v1 v2.
  apply times_eq; assumption.
Qed.

Lemma CHFile_times_of_bytes_witness :
  exists self,
    __init__ decimal_int example_reader example_strptime version_179_file = Return self
    /\ times self
       = (Return
            (numpy_linspace
               (single_of_bits (be_uint (take 4 (drop 282 version_179_file)))
                / float_of_Z 60000)
               (single_of_bits (be_uint (take 4 (drop 286 version_179_file)))
                / float_of_Z 60000)
               (length (values self))),
          self).
Proof.
  destruct built_example as [self Hself]. exists self. split; [exact Hself |].
  exact (CHFile_times_of_bytes decimal_int example_reader example_strptime
           version_179_file self example_reader_keeps_content Hself).
Defined.

(** X16: a file that announces version 179 and ends before the first entry
    of the field table, that is before offset 254, is refused with
    [struct.error], whatever the reader of the strings would do. *)
Theorem CHFile_header_cut_short
    (int : list byte -> option Z) (parse_utf16_string : Py file string)
    (strptime : string -> string -> option (list Z))
    (n : byte) (vs rest : list byte) :
  byte_to_nat n = length vs ->
  int vs = Some 179 ->
  (length (n :: vs ++ rest) < 254)%nat ->
  __init__ int parse_utf16_string strptime (n :: vs ++ rest) = Raise struct_error.
Proof.
  intros Hn Hint Hshort.
  assert (Hh : exists s',
             _parse_header int parse_utf16_string strptime (∅, File (n :: vs ++ rest) 0)
             = (Raise struct_error, s')).
  { rewrite (_parse_header_version int parse_utf16_string strptime n vs rest ∅ 179 Hn Hint).
    destruct (decide (179 ∉ supported_versions)) as [Hnot | _].
    { exfalso. apply Hnot. unfold supported_versions. apply elem_of_singleton.
      reflexivity. }
    py_step (set_item_eq "magic_number_version" (VInt 179) ∅
               (File (n :: vs ++ rest) (1 + length vs))).
    destruct (parse_field_short parse_utf16_string "sequence_line_or_injection" 252
                UINT16 (<["magic_number_version" := VInt 179]> ∅)
                (File (n :: vs ++ rest) (1 + length vs))) as [p Hp].
    { cbn [content calcsize]. rewrite length_take, length_drop. lia. }
    eexists. apply bind_Raise. unfold fields. cbn [parse_fields].
    apply bind_Raise. exact Hp. }
  destruct Hh as [s' Hh]. unfold __init__.
  rewrite (bind_Raise _ _ _ _ _ Hh). destruct s'. reflexivity.
Qed.

Lemma CHFile_header_cut_short_witness :
  __init__ decimal_int example_reader example_strptime
    (Byte.x03 :: [Byte.x31; Byte.x37; Byte.x39] ++ [Byte.x00; Byte.x00])
  = Raise struct_error.
Proof.
  apply (CHFile_header_cut_short decimal_int example_reader example_strptime
           Byte.x03 [Byte.x31; Byte.x37; Byte.x39] [Byte.x00; Byte.x00]).
  - reflexivity.
  - reflexivity.
  - cbn [length app]. lia.
Defined.

(** X17: a file shorter than the version string its first byte announces,
    the empty file among them, is refused with [struct.error] before [int]
    is called. *)
Theorem CHFile_version_cut_short
    (int : list byte -> option Z) (parse_utf16_string : Py file string)
    (strptime : string -> string -> option (list Z)) (bytes : list byte) :
  (length bytes < 1 + byte_to_nat (default Byte.x00 (head bytes)))%nat ->
  __init__ int parse_utf16_string strptime bytes = Raise struct_error.
Proof.
  intros Hshort.
  assert (Hh : exists s',
             _parse_header int parse_utf16_string strptime (∅, File bytes 0)
             = (Raise struct_error, s')).
  { destruct bytes as [| n rest]; [eexists; reflexivity |].
    cbn [head default length id] in Hshort. unfold _parse_header.
    assert (H1 : ahead (File (n :: rest) 0) = [n] ++ rest) by reflexivity.
    py_step (on_file_eq _ ∅ _ _ _ (read_ahead _ _ _ H1)).
    py_step (unpack_UINT8 (St := state) n (∅, advance (length [n]) (File (n :: rest) 0))).
    rewrite byte_to_Z_nat.
    py_step (on_file_eq _ ∅ _ _ _
               (read_eq (byte_to_nat n) (advance (length [n]) (File (n :: rest) 0)))).
    rewrite (ahead_advance _ _ _ H1). unfold unpack. eexists.
    apply bind_Raise. apply unpack_sized_short. cbn [calcsize].
    rewrite length_take. lia. }
  destruct Hh as [s' Hh]. unfold __init__.
  rewrite (bind_Raise _ _ _ _ _ Hh). destruct s'. reflexivity.
Qed.

Lemma CHFile_version_cut_short_witness :
  __init__ decimal_int example_reader example_strptime [Byte.x03; Byte.x31; Byte.x37]
  = Raise struct_error.
Proof.
  apply (CHFile_version_cut_short decimal_int example_reader example_strptime
           [Byte.x03; Byte.x31; Byte.x37]).
  vm_compute. lia.
Defined.

(** X18: for a reader that leaves the content alone, no file shorter than
    4740 bytes is accepted: the scale factor at offset 4732 has to be
    there. *)
Theorem CHFile_short_file_refused
    (int : list byte -> option Z) (parse_utf16_string : Py file string)
    (strptime : string -> string -> option (list Z))
    (bytes : list byte) (self : CHFile) :
  keeps_content parse_utf16_string ->
  (length bytes < 4732 + 8)%nat ->
  __init__ int parse_utf16_string strptime bytes <> Return self.
Proof.
  intros Hkeep Hshort H.
  destruct (built_field int parse_utf16_string strptime bytes self Hkeep H) as [Hf _].
  destruct (Hf "yscaling" 4732%nat (struct_format ENDIAN_d)) as (v & _ & Hfv).
  { unfold fields. repeat (first [apply list_elem_of_here | apply list_elem_of_further]). }
  unfold field_value in Hfv. cbn [calcsize] in Hfv.
  destruct (Nat.eqb _ 8) eqn:E; [| discriminate Hfv].
  apply Nat.eqb_eq in E. rewrite length_take, length_drop in E.
  revert Hshort E. generalize 4732%nat. intros o Hshort E. lia.
Qed.

Lemma CHFile_short_file_refused_witness :
  __init__ decimal_int example_reader example_strptime
    ([Byte.x03; Byte.x31; Byte.x37; Byte.x39] ++ repeat Byte.x00 300)
  <> Return {| metadata := ∅; values := [] |}.
Proof.
  apply (CHFile_short_file_refused decimal_int example_reader example_strptime
           ([Byte.x03; Byte.x31; Byte.x37; Byte.x39] ++ repeat Byte.x00 300)
           {| metadata := ∅; values := [] |} example_reader_keeps_content).
  apply Nat.ltb_lt. vm_compute. reflexivity.
Defined.

(** X19: [_parse_data] needs the header and a file that reaches the data.
    On a file of at most 6136 bytes it raises the [ValueError] of
    [numpy.fromfile] whatever [metadata] holds; on a longer file and a
    [metadata] without "yscaling" it reads the file and then raises
    [KeyError].  In both cases [metadata] is as it was. *)
Theorem _parse_data_needs_yscaling (md : gmap string value) (f : file) :
  (Z.of_nat (length (content f)) <= 6136 ->
   exists p,
     _parse_data (md, f)
     = (Raise (ValueError "negative dimensions are not allowed"),
        (md, File (content f) p)))
  /\ (6136 < Z.of_nat (length (content f)) ->
      md !! "yscaling" = None ->
      exists p,
        _parse_data (md, f) = (Raise (KeyError "yscaling"), (md, File (content f) p))).
Proof.
  unfold _parse_data, bind, on_file, seek_end, tell, seek, numpy_fromfile, get_item.
  cbn [fst snd content pos]. rewrite data_start_value.
  generalize (Z.of_nat (length (content f))). intros n. split.
  - intros Hn.
    assert (H1 : ((n - 6144) `div` 8 <? 0) = true)
      by (apply Z.ltb_lt; Z.to_euclidean_division_equations; lia).
    assert (H2 : ((n - 6144) `quot` 8 <? 0) = true)
      by (apply Z.ltb_lt; Z.to_euclidean_division_equations; lia).
    rewrite H1, H2. eexists. reflexivity.
  - intros Hn Hys.
    assert (H2 : ((n - 6144) `quot` 8 <? 0) = false)
      by (apply Z.ltb_ge; Z.to_euclidean_division_equations; lia).
    rewrite H2. destruct ((n - 6144) `div` 8 <? 0); cbn [fst snd content pos];
      rewrite Hys; eexists; reflexivity.
Qed.

Lemma _parse_data_needs_yscaling_witness :
  (exists p,
     _parse_data (∅, File [] 0)
     = (Raise (ValueError "negative dimensions are not allowed"), (∅, File [] p)))
  /\ (exists p,
        _parse_data (∅, File version_179_file 0)
        = (Raise (KeyError "yscaling"), (∅, File version_179_file p))).
Proof.
  pose proof (_parse_data_needs_yscaling ∅ (File [] 0)) as [Hshort _].
  pose proof (_parse_data_needs_yscaling ∅ (File version_179_file 0)) as [_ Hlong].
  split.
  - apply Hshort. cbn [content length]. lia.
  - apply Hlong; [| reflexivity]. apply Z.ltb_lt. vm_compute. reflexivity.
Defined.


(** ** The inner loop of [analyzeData] *)

Section Loop.

Variable str : float -> string.

Lemma for_enumerate_merged (point_list : list float) :
  forall (i : nat) (w : list string) (pre rows : list (list string))
         (fpre frows : list (list float)),
    length pre = i -> length fpre = i -> length frows = length rows ->
    foldl (fun st ip => enumerate_body str (fst ip) (snd ip) st)
      {| ofile := w; lines := pre ++ rows; float_data := fpre ++ frows |}
      (zip (seq i (length point_list)) point_list)
    = {| ofile :=
           w ++ map (fun ip => csv_line str (fst ip) (snd ip))
                  (zip (seq i (length point_list)) point_list);
         lines := pre ++ merged (fun i => str (minutes i)) str i rows point_list;
         float_data :=
           fpre ++ merged (fun i => minutes (S i)) (fun point => point) i frows
                     point_list |}.
Proof.
  induction point_list as [| point point_list IH];
    intros i w pre rows fpre frows Hi Hfi Hlen.
  - cbn. rewrite app_nil_r. reflexivity.
  - cbn [length seq zip zip_with foldl map merged fst snd].
    unfold enumerate_body at 2. cbn [ofile lines float_data].
    destruct rows as [| row rows]; destruct frows as [| frow frows]; try discriminate Hlen.
    + rewrite !app_nil_r.
      rewrite (lookup_ge_None_2 pre i) by lia.
      rewrite length_app. cbn [length]. rewrite Hi.
      replace (i + 1)%nat with (S i) by lia.
      assert (H1 : length (pre ++ [[str (minutes i); str point]]) = S i)
        by (rewrite length_app; cbn [length]; lia).
      assert (H2 : length (fpre ++ [[minutes (S i); point]]) = S i)
        by (rewrite length_app; cbn [length]; lia).
      pose proof (IH (S i) (w ++ [csv_line str i point]) _ [] _ [] H1 H2 eq_refl) as IH'.
      rewrite !app_nil_r in IH'. rewrite IH', <- !app_assoc. reflexivity.
    + assert (H1 : (pre ++ row :: rows) !! i = Some row).
      { rewrite lookup_app_r by lia. replace (i - length pre)%nat with 0%nat by lia.
        reflexivity. }
      assert (H2 : (fpre ++ frow :: frows) !! i = Some frow).
      { rewrite lookup_app_r by lia. replace (i - length fpre)%nat with 0%nat by lia.
        reflexivity. }
      rewrite H1, H2.
      rewrite !insert_app_r_alt by lia.
      replace (i - length pre)%nat with 0%nat by lia.
      replace (i - length fpre)%nat with 0%nat by lia.
      cbn [insert list_insert].
      assert (H3 : length (pre ++ [row ++ [str point]]) = S i)
        by (rewrite length_app; cbn [length]; lia).
      assert (H4 : length (fpre ++ [frow ++ [point]]) = S i)
        by (rewrite length_app; cbn [length]; lia).
      injection Hlen as Hlen.
      pose proof (IH (S i) (w ++ [csv_line str i point]) _ rows _ frows H3 H4 Hlen) as IH'.
      rewrite <- !app_assoc in IH'. cbn [app] in IH'. exact IH'.
Qed.

Lemma for_enumerate_eq (point_list : list float) (st : collected) :
  length (float_data st) = length (lines st) ->
  for_enumerate str point_list st
  = {| ofile :=
         ofile st ++ map (fun ip => csv_line str (fst ip) (snd ip)) (enumerate point_list);
       lines := merged (fun i => str (minutes i)) str 0 (lines st) point_list;
       float_data :=
         merged (fun i => minutes (S i)) (fun point => point) 0 (float_data st)
           point_list |}.
Proof.
  intros Hlen. destruct st as [w rows frows]. cbn [ofile lines float_data] in *.
  unfold for_enumerate, enumerate.
  exact (for_enumerate_merged point_list 0 w [] rows [] frows eq_refl eq_refl Hlen).
Qed.

End Loop.

Lemma longest_snoc (point_lists : list (list float)) (point_list : list float) :
  longest (point_lists ++ [point_list])
  = Nat.max (longest point_lists) (length point_list).
Proof.
  unfold longest. induction point_lists as [| d ds IH].
  - cbn. lia.
  - cbn [app map foldr]. cbn [app map foldr] in IH. rewrite IH. lia.
Qed.

Lemma longest_le (point_lists : list (list float)) :
  Forall (fun d => (length d <= longest point_lists)%nat) point_lists.
Proof.
  unfold longest. induction point_lists as [| d ds IH]; constructor.
  - cbn [map foldr]. lia.
  - cbn [map foldr]. eapply Forall_impl; [exact IH |]. cbn beta. intros x Hx. lia.
Qed.

Lemma points_at_beyond (i : nat) (point_lists : list (list float)) :
  Forall (fun d => (length d <= i)%nat) point_lists -> points_at i point_lists = [].
Proof.
  unfold points_at. induction 1 as [| d ds Hd _ IH]; [reflexivity |].
  cbn [omap list_omap]. rewrite (lookup_ge_None_2 d i Hd). exact IH.
Qed.

Lemma points_at_snoc (i : nat) (point_lists : list (list float)) (point_list : list float) :
  points_at i (point_lists ++ [point_list])
  = points_at i point_lists
    ++ match point_list !! i with Some point => [point] | None => [] end.
Proof.
  unfold points_at. rewrite omap_app. cbn [omap list_omap].
  destruct (point_list !! i); reflexivity.
Qed.

Section Rows.

Context {A : Type}.
Variable label : nat -> A.
Variable cell : float -> A.

Lemma merged_rows (done : list (list float)) (point_list : list float) :
  forall (ps : list float) (k a : nat),
    drop k point_list = ps ->
    Forall (fun d => (length d <= k + a)%nat) done ->
    merged label cell k
      (map (fun i => label i :: map cell (points_at i done)) (seq k a)) ps
    = map (fun i => label i :: map cell (points_at i (done ++ [point_list])))
        (seq k (Nat.max a (length ps))).
Proof.
  induction ps as [| p ps IH]; intros k a Hdrop Hall.
  - cbn [merged length]. rewrite Nat.max_0_r. apply map_ext_in. intros i Hi.
    apply in_seq in Hi. rewrite points_at_snoc.
    apply (f_equal length) in Hdrop. rewrite length_drop in Hdrop. cbn [length] in Hdrop.
    rewrite (lookup_ge_None_2 point_list i) by lia. rewrite app_nil_r. reflexivity.
  - assert (Hk : point_list !! k = Some p).
    { rewrite <- (Nat.add_0_r k), <- lookup_drop, Hdrop. reflexivity. }
    assert (Hdrop' : drop (S k) point_list = ps).
    { rewrite (drop_S _ _ _ Hk) in Hdrop. injection Hdrop as Hdrop. exact Hdrop. }
    destruct a as [| a].
    + cbn [seq map merged length Nat.max].
      rewrite points_at_snoc, Hk.
      rewrite (points_at_beyond k done)
        by (eapply Forall_impl; [exact Hall |]; cbn beta; intros x Hx; lia).
      cbn [app map]. f_equal.
      apply (IH (S k) 0%nat Hdrop').
      eapply Forall_impl; [exact Hall |]. cbn beta. intros x Hx. lia.
    + cbn [seq map merged length Nat.max].
      rewrite points_at_snoc, Hk, map_app. cbn [map app]. f_equal.
      apply (IH (S k) a Hdrop').
      eapply Forall_impl; [exact Hall |]. cbn beta. intros x Hx. lia.
Qed.

Lemma merged_rows_of (done : list (list float)) (point_list : list float) :
  merged label cell 0 (rows_of label cell done) point_list
  = rows_of label cell (done ++ [point_list]).
Proof.
  unfold rows_of. rewrite longest_snoc.
  apply (merged_rows done point_list point_list 0 (longest done)); [reflexivity |].
  apply longest_le.
Qed.

Lemma length_rows_of (point_lists : list (list float)) :
  length (rows_of label cell point_lists) = longest point_lists.
Proof. unfold rows_of. rewrite length_map, length_seq. reflexivity. Qed.

End Rows.

Section Merged.

Context {A : Type}.
Variable label : nat -> A.
Variable cell : float -> A.

Lemma length_merged (point_list : list float) :
  forall (k : nat) (rows : list (list A)),
    length (merged label cell k rows point_list)
    = Nat.max (length rows) (length point_list).
Proof.
  induction point_list as [| p ps IH]; intros k rows.
  - cbn [merged length]. lia.
  - destruct rows as [| row rows]; cbn [merged length]; rewrite IH; cbn [length]; lia.
Qed.

Lemma merged_lookup_both (point_list : list float) :
  forall (k j : nat) (rows : list (list A)) (row : list A) (p : float),
    rows !! j = Some row -> point_list !! j = Some p ->
    merged label cell k rows point_list !! j = Some (row ++ [cell p]).
Proof.
  induction point_list as [| q ps IH]; intros k j rows row p Hrow Hp.
  - discriminate Hp.
  - destruct rows as [| r rows]; [discriminate Hrow |].
    destruct j as [| j]; cbn [merged].
    + injection Hrow as ->. injection Hp as ->. reflexivity.
    + apply (IH (S k) j rows row p Hrow Hp).
Qed.

Lemma merged_lookup_new (point_list : list float) :
  forall (k j : nat) (rows : list (list A)) (p : float),
    (length rows <= j)%nat -> point_list !! j = Some p ->
    merged label cell k rows point_list !! j = Some [label (k + j)%nat; cell p].
Proof.
  induction point_list as [| q ps IH]; intros k j rows p Hj Hp.
  - discriminate Hp.
  - destruct rows as [| r rows]; destruct j as [| j]; cbn [merged length] in *.
    + injection Hp as ->. rewrite Nat.add_0_r. reflexivity.
    + change ((?x :: ?l) !! S j) with (l !! j).
      rewrite (IH (S k) j [] p) by (cbn [length]; lia || exact Hp).
      replace (S k + j)%nat with (k + S j)%nat by lia. reflexivity.
    + lia.
    + change ((?x :: ?l) !! S j) with (l !! j).
      rewrite (IH (S k) j rows p) by (lia || exact Hp).
      replace (S k + j)%nat with (k + S j)%nat by lia. reflexivity.
Qed.

Lemma merged_lookup_old (point_list : list float) :
  forall (k j : nat) (rows : list (list A)),
    (length point_list <= j)%nat ->
    merged label cell k rows point_list !! j = rows !! j.
Proof.
  induction point_list as [| q ps IH]; intros k j rows Hj.
  - reflexivity.
  - cbn [length] in Hj. destruct j as [| j]; [lia |].
    destruct rows as [| r rows]; cbn [merged].
    + change ((?x :: ?l) !! S j) with (l !! j). rewrite IH by lia. reflexivity.
    + change ((?x :: ?l) !! S j) with (l !! j). apply IH. lia.
Qed.

End Merged.

(** X20: the rows [analyzeData] collects.  When [lines] holds, for the runs
    so far, one row for each point number [i] up to the longest run, made of
    [str(i/150.)] and then [str] of the point number [i] of every run that
    has one, in the order of the runs, the loop over the points of one more
    run leaves [lines] in that form for the runs with that run added: a run
    with fewer points is skipped in the later rows, not padded.
    [float_data] holds the same points under the label [(i+1)/150.], and
    [ofile] gets one line ["str(i/150.),str(point)"] for every point.  The
    empty [lines] and [float_data] the function starts from are of that
    form, for no run. *)
Theorem analyzeData_rows (str : float -> string)
    (done : list (list float)) (point_list : list float) (w : list string) :
  for_enumerate str point_list
    {| ofile := w;
       lines :=
         map (fun i => str (minutes i) :: map str (points_at i done))
           (seq 0 (longest done));
       float_data :=
         map (fun i => minutes (S i) :: points_at i done) (seq 0 (longest done)) |}
  = {| ofile :=
         w ++ map (fun ip => csv_line str (fst ip) (snd ip)) (enumerate point_list);
       lines :=
         map (fun i => str (minutes i) :: map str (points_at i (done ++ [point_list])))
           (seq 0 (longest (done ++ [point_list])));
       float_data :=
         map (fun i => minutes (S i) :: points_at i (done ++ [point_list]))
           (seq 0 (longest (done ++ [point_list]))) |}
  /\ map (fun i => str (minutes i) :: map str (points_at i [])) (seq 0 (longest [])) = []
  /\ map (fun i => minutes (S i) :: points_at i []) (seq 0 (longest [])) = [].
Proof.
  split; [| split; reflexivity].
  assert (Hid : forall pls,
             map (fun i => minutes (S i) :: points_at i pls) (seq 0 (longest pls))
             = rows_of (fun i => minutes (S i)) (fun point => point) pls).
  { intros pls. unfold rows_of. apply map_ext. intros i. rewrite map_id. reflexivity. }
  rewrite !Hid.
  change (map (fun i => str (minutes i) :: map str (points_at i ?pls))
            (seq 0 (longest ?pls)))
    with (rows_of (fun i => str (minutes i)) str pls).
  rewrite for_enumerate_eq by (cbn [lines float_data]; rewrite !length_rows_of; reflexivity).
  cbn [ofile lines float_data]. rewrite !merged_rows_of. reflexivity.
Qed.

(** X21: the loop never pads.  On [lines] and [float_data] of the same
    number of rows, the loop over the points of a run gives every row that
    the run has a point for one cell more, opens a row of two cells, the
    label and the point, for every point beyond the rows there were,
    whatever the number of cells of the rows before it, and leaves the rows
    beyond the run as they were; [float_data] has again as many rows as
    [lines]. *)
Theorem analyzeData_rows_not_padded (str : float -> string)
    (point_list : list float) (st : collected) :
  length (float_data st) = length (lines st) ->
  length (lines (for_enumerate str point_list st))
  = Nat.max (length (lines st)) (length point_list)
  /\ length (float_data (for_enumerate str point_list st))
     = length (lines (for_enumerate str point_list st))
  /\ (forall i row point,
        lines st !! i = Some row -> point_list !! i = Some point ->
        lines (for_enumerate str point_list st) !! i = Some (row ++ [str point]))
  /\ (forall i point,
        (length (lines st) <= i)%nat -> point_list !! i = Some point ->
        lines (for_enumerate str point_list st) !! i
        = Some [str (minutes i); str point])
  /\ (forall i,
        (length point_list <= i)%nat ->
        lines (for_enumerate str point_list st) !! i = lines st !! i).
Proof.
  intros Hlen. rewrite (for_enumerate_eq str point_list st Hlen).
  cbn [lines float_data]. rewrite !length_merged, Hlen.
  split; [reflexivity |]. split; [reflexivity |]. split; [| split].
  - intros i row point. apply merged_lookup_both.
  - intros i point Hi Hp.
    apply (merged_lookup_new (fun i => str (minutes i)) str point_list 0 i _ point Hi Hp).
  - intros i. apply merged_lookup_old.
Qed.

Lemma analyzeData_rows_not_padded_witness :
  lines (for_enumerate example_str [5; 2.5; 3.5]%float
           {| ofile := []; lines := [["+"; "+"]]; float_data := [[1; 2]%float] |})
  !! 0%nat
  = Some (["+"; "+"] ++ [example_str 5])
  /\ lines (for_enumerate example_str [5; 2.5; 3.5]%float
              {| ofile := []; lines := [["+"; "+"]]; float_data := [[1; 2]%float] |})
     !! 2%nat
     = Some [example_str (minutes 2); example_str 3.5].
Proof.
  destruct (analyzeData_rows_not_padded example_str [5; 2.5; 3.5]%float
              {| ofile := []; lines := [["+"; "+"]]; float_data := [[1; 2]%float] |}
              eq_refl)
    as (_ & _ & Hboth & Hnew & _).
  split.
  - apply Hboth; reflexivity.
  - apply Hnew; [cbn [lines length]; lia | reflexivity].
Defined.

(** A run of one point and then a run of three: the rows of the second
    and third point have two cells where the first row has three, so in
    them the points of the second run stand in the column of the first. *)
Example analyzeData_shifted_columns :
  lines (for_enumerate example_str [5; 2.5; 3.5]%float
           (for_enumerate example_str [-1]%float
              {| ofile := []; lines := []; float_data := [] |}))
  = [["+"; "-"; "+"]; ["+"; "+"]; ["+"; "+"]].
Proof. vm_compute. reflexivity. Qed.
